(** * DocChat: the request handler and the per-document index cache

    A shallow embedding of [docai/docchat/views.py] and
    [docai/docchat/forms.py].  The view [home] mutates the session dict of
    the request, the document table, the on-disk vector stores, and calls
    out to third-party services (HTTP download, PDF parsing, text splitting,
    embedding, chat completion).  All of this is threaded explicitly through
    a state-and-exception monad; the third-party services, and the library
    and file-system functions whose answers the code depends on, are
    oracles collected in a record.

    Not modelled: [request.session.modified = True], which only tells the
    framework to save the session, and the construction of the
    [OpenAIEmbeddings] and [ChatOpenAI] clients, which makes no call. *)

From Stdlib Require Import ZArith Ascii String List.
From stdpp Require Import base option gmap strings list.
Import ListNotations.

Local Open Scope string_scope.
Local Open Scope list_scope.
Local Open Scope Z_scope.

(** ** Text *)

(** The text of a question or an answer is a Python [str]: a sequence of
    Unicode code points.  Its length counts code points.  Keys, file names,
    URLs and file contents, which the code only compares and passes on,
    are kept as strings. *)
Definition text := list N.

(** A literal, character by character (for ASCII literals the characters
    are the code points). *)
Fixpoint text_of_string (s : string) : text :=
  match s with
  | EmptyString => []
  | String c s' => N_of_ascii c :: text_of_string s'
  end.
Coercion text_of_string : string >-> text.

(** ** Values held by the session dict *)

(** One entry of the conversation: the dict [{"question": q, "answer": a}]. *)
Record Entry := mkEntry { question : text; answer : text }.

(** The session is a dict from string keys to Python values.  The handler
    stores a [str] (the file name), an [int] (the document id) and a [list]
    of entries (the conversation). *)
Inductive value :=
| VStr (s : string)
| VInt (n : Z)
| VList (l : list Entry).

(** Python truthiness of [session.get(key)]: an absent key gives [None]. *)
Definition truthy (v : option value) : bool :=
  match v with
  | None => false
  | Some (VStr s) => negb (String.eqb s "")
  | Some (VInt n) => negb (n =? 0)
  | Some (VList l) => match l with [] => false | _ => true end
  end.

(** ** Requests *)

Record UploadedFile := mkUploadedFile { name : string; content : string }.

Record Request := mkRequest {
  method : string;
  POST : gmap string text;
  FILES : gmap string UploadedFile
}.

(** [key in request.POST] *)
Definition in_POST (key : string) (request : Request) : bool :=
  bool_decide (is_Some (POST request !! key)).

(** ** Forms (forms.py) *)

(** A form object is either unbound ([Form()]) or bound to submitted data. *)
Inductive DocumentUploadForm :=
| DocumentUploadForm_new
| DocumentUploadForm_bound (file : option UploadedFile).

Inductive QuestionForm :=
| QuestionForm_new
| QuestionForm_bound (raw : option text).

(** [file = forms.FileField(...)]: the field is required, the submitted file
    must have a name and must not be empty.  Errors are given by the
    framework's error codes. *)
Definition clean_file (file : option UploadedFile) : string + UploadedFile :=
  match file with
  | None => inl "required"
  | Some f =>
      if String.eqb (name f) "" then inl "invalid"
      else if String.eqb (content f) "" then inl "empty"
      else inr f
  end.

(** The code points [str.strip()] removes: those for which [str.isspace]
    holds (U+0009..U+000D, U+001C..U+0020, U+0085, U+00A0, U+1680,
    U+2000..U+200A, U+2028, U+2029, U+202F, U+205F, U+3000). *)
Definition is_space (c : N) : bool :=
  ((9 <=? c) && (c <=? 13) || (28 <=? c) && (c <=? 32)
   || (c =? 133) || (c =? 160) || (c =? 5760)
   || (8192 <=? c) && (c <=? 8202)
   || (c =? 8232) || (c =? 8233) || (c =? 8239) || (c =? 8287)
   || (c =? 12288))%N.

Fixpoint lstrip (s : text) : text :=
  match s with
  | [] => []
  | c :: s' => if is_space c then lstrip s' else s
  end.

Fixpoint rstrip (s : text) : text :=
  match s with
  | [] => []
  | c :: s' =>
      match rstrip s' with
      | [] => if is_space c then [] else [c]
      | r => c :: r
      end
  end.

Definition strip (s : text) : text := rstrip (lstrip s).

Fixpoint has_nul (s : text) : bool :=
  match s with
  | [] => false
  | c :: s' => (c =? 0)%N || has_nul s'
  end.

Definition is_empty (s : text) : bool :=
  match s with [] => true | _ => false end.

Definition max_length : nat := 500.

(** The validators of the field, run on a non-empty stripped value: the
    length limit and the NUL check.  The form collects the errors of both,
    in this order.  Errors are given by the framework's error codes. *)
Definition question_validators (v : text) : list string :=
  (if (max_length <? length v)%nat then ["max_length"] else [])
  ++ (if has_nul v then ["null_characters_not_allowed"] else []).

(** The errors [question = forms.CharField(max_length=500, ...)] reports:
    the value is stripped; a missing or empty value is the one error
    "required"; otherwise the validators run. *)
Definition question_errors (raw : option text) : list string :=
  match raw with
  | None => ["required"]
  | Some s =>
      if is_empty (strip s) then ["required"]
      else question_validators (strip s)
  end.

(** [question_form.is_valid()] and [cleaned_data["question"]]: the stripped
    value when the field has no error, the first error otherwise. *)
Definition clean_question (raw : option text) : string + text :=
  match raw with
  | None => inl "required"
  | Some s =>
      match question_errors raw with
      | [] => inr (strip s)
      | e :: _ => inl e
      end
  end.

(** Errors a form shows when rendered; an unbound form shows none. *)
Definition upload_form_errors (f : DocumentUploadForm) : list string :=
  match f with
  | DocumentUploadForm_new => []
  | DocumentUploadForm_bound file =>
      match clean_file file with inl e => [e] | inr _ => [] end
  end.

Definition question_form_errors (f : QuestionForm) : list string :=
  match f with
  | QuestionForm_new => []
  | QuestionForm_bound raw => question_errors raw
  end.

(** ** Documents *)

(** Modelled from the spec: the [Document] model of [models.py] (not part of
    the sources at hand), "{id, file reference (local path or remote URL)}".
    [file_url] is [doc.file.url] and [file_path] is [doc.file.path]. *)
Record Document := mkDocument {
  doc_id : Z;
  file_url : string;
  file_path : string
}.

(** What a [PyPDFLoader] was constructed on: a local path, or the temporary
    file that holds downloaded bytes. *)
Inductive Loader :=
| PyPDFLoader_path (path : string)
| PyPDFLoader_tmp (bytes : string).

(** ** Observable calls *)

(** The trace records, in program order, the calls whose order or absence
    the properties below talk about. *)
Inductive Event :=
| EvSave (id : Z)                   (* doc.save() *)
| EvHttpGet (url : string)          (* requests.get(file_url) *)
| EvPdfLoad (ld : Loader)           (* loader.load() *)
| EvEmbed (texts : list string)     (* Chroma.from_documents embeds the chunks *)
| EvPersist (id : Z)                (* vectorstore.persist() *)
| EvChromaOpen (id : Z)             (* Chroma(persist_directory=...) *)
| EvUploadIsValid                   (* upload_form.is_valid() *)
| EvQuestionIsValid                 (* question_form.is_valid() *)
| EvLLM (q : text).                 (* qa.run(question): the question is
                                       embedded, chunks are retrieved and the
                                       model is called *)

Inductive Exn :=
| DoesNotExist        (* Document.DoesNotExist *)
| HTTPError           (* requests: transport failure or raise_for_status *)
| NotAFile            (* PyPDFLoader(path): the path is no file *)
| PdfError            (* the PDF could not be parsed *)
| EmbeddingError      (* embedding the chunks failed *)
| CompletionError     (* qa.run failed *)
| ValueError          (* objects.get(id=v): v is a string that is no number *)
| TypeError           (* objects.get(id=v): v is a list *)
| AttributeError.     (* .append on a value that is no list *)

Inductive Outcome (A : Type) :=
| Return (a : A)
| Raise (e : Exn).
Arguments Return {A} a.
Arguments Raise {A} e.

(** ** Responses: [render(request, template, context)] *)

Inductive Response :=
| upload_html (form : DocumentUploadForm) (error : option string)
| upload_success_html (filename : option value) (question_form : QuestionForm)
    (conversation : value) (answer_key : bool).

Section DocChat.

(** The index type of the vector store library is opaque here. *)
Context {Index : Type}.

(** Third-party services and deployment-specific storage. [None] stands for
    the call raising. *)
Record Services := mkServices {
  (* the storage backend: where the uploaded file ends up *)
  storage : UploadedFile -> Z -> string * string;
  (* Python's int(s), which the ORM applies to a string given as a
     primary key *)
  int_of_str : string -> option Z;
  (* os.path.isfile(path), as PyPDFLoader's constructor checks it *)
  isfile : string -> bool;
  (* the store Chroma creates under persist_directory before anything is
     added to it *)
  empty_store : Index;
  (* requests.get(url) followed by raise_for_status(); the body *)
  http_get : string -> option string;
  (* PyPDFLoader(...).load(): the page texts *)
  pdf_load : Loader -> option (list string);
  (* CharacterTextSplitter(chunk_size, chunk_overlap).split_documents *)
  split_documents : nat -> nat -> list string -> list string;
  (* Chroma.from_documents(texts, embeddings, ...): the store with the
     embedded chunks added *)
  from_documents : list string -> option Index;
  (* RetrievalQA over the index: qa.run(question) *)
  qa_run : Index -> text -> option text
}.

Variable sv : Services.

(** ** The mutable world *)

Record State := mkState {
  session : gmap string value;       (* request.session *)
  documents : gmap Z Document;       (* the Document table *)
  next_id : Z;                       (* next primary key *)
  vectorstore_dir : bool;            (* does VECTORSTORE_DIR exist *)
  vectorstores : gmap Z Index;       (* VECTORSTORE_DIR/<id> and its index *)
  tmp_files : list string;           (* temporary files left behind *)
  trace : list Event
}.

Definition set_session (f : gmap string value -> gmap string value)
    (st : State) : State :=
  mkState (f (session st)) (documents st) (next_id st) (vectorstore_dir st)
          (vectorstores st) (tmp_files st) (trace st).

Definition log (ev : Event) (st : State) : State :=
  mkState (session st) (documents st) (next_id st) (vectorstore_dir st)
          (vectorstores st) (tmp_files st) (trace st ++ [ev]).

Definition M (A : Type) : Type := State -> Outcome A * State.

Definition ret {A} (a : A) : M A := fun st => (Return a, st).
Definition raise {A} (e : Exn) : M A := fun st => (Raise e, st).
Definition bind {A B} (m : M A) (k : A -> M B) : M B :=
  fun st => match m st with
            | (Return a, st') => k a st'
            | (Raise e, st') => (Raise e, st')
            end.
Definition modify (f : State -> State) : M unit := fun st => (Return tt, f st).
Definition gets {A} (f : State -> A) : M A := fun st => (Return (f st), st).
(** Call a service that may raise. *)
Definition call {A} (r : option A) (e : Exn) : M A :=
  match r with Some a => ret a | None => raise e end.

Notation "x <- m ;; k" := (bind m (fun x => k))
  (at level 100, m at next level, right associativity).
Notation "m ;;; k" := (bind m (fun _ => k))
  (at level 100, right associativity).

(** ** views.py *)

(** The temporary file is written and kept ([delete=False]); the loader is
    constructed on it, and since it is a file the constructor does not
    raise. *)
Definition load_pdf_from_cloudinary (file_url : string) : M Loader :=
  modify (log (EvHttpGet file_url)) ;;;
  body <- call (http_get sv file_url) HTTPError ;;
  modify (fun st =>
    mkState (session st) (documents st) (next_id st) (vectorstore_dir st)
            (vectorstores st) (tmp_files st ++ [body]) (trace st)) ;;;
  ret (PyPDFLoader_tmp body).

(** [PyPDFLoader(path)]: the constructor raises when the path is no file. *)
Definition PyPDFLoader (path : string) : M Loader :=
  if isfile sv path then ret (PyPDFLoader_path path) else raise NotAFile.

Definition get_loader (doc : Document) : M Loader :=
  if String.prefix "http" (file_url doc)
  then load_pdf_from_cloudinary (file_url doc)
  else PyPDFLoader (file_path doc).

Definition makedirs (st : State) : State :=
  mkState (session st) (documents st) (next_id st) true
          (vectorstores st) (tmp_files st) (trace st).

Definition persist (id : Z) (idx : Index) (st : State) : State :=
  mkState (session st) (documents st) (next_id st) (vectorstore_dir st)
          (<[id := idx]> (vectorstores st)) (tmp_files st) (trace st).

(** [Chroma.from_documents(texts, embeddings, persist_directory=store_path)]:
    the store is created under [store_path] first, then the chunks are
    embedded and added.  When the embedding fails the store that was
    created stays behind, empty. *)
Definition Chroma_from_documents (texts : list string) (id : Z) : M Index :=
  modify (persist id (empty_store sv)) ;;;
  modify (log (EvEmbed texts)) ;;;
  vectorstore <- call (from_documents sv texts) EmbeddingError ;;
  modify (persist id vectorstore) ;;;
  ret vectorstore.

Definition get_vectorstore (doc : Document) : M Index :=
  modify makedirs ;;;
  stored <- gets (fun st => vectorstores st !! doc_id doc) ;;
  match stored with
  | Some idx =>
      modify (log (EvChromaOpen (doc_id doc))) ;;;
      ret idx
  | None =>
      loader <- get_loader doc ;;
      modify (log (EvPdfLoad loader)) ;;;
      pages <- call (pdf_load sv loader) PdfError ;;
      let texts := split_documents sv 1000 100 pages in
      vectorstore <- Chroma_from_documents texts (doc_id doc) ;;
      modify (log (EvPersist (doc_id doc))) ;;;
      ret vectorstore
  end.

(** [Document(file=uploaded_file)] followed by [doc.save()], as the ORM
    does it: the row gets the next primary key and the file goes to the
    storage backend. *)
Definition Document_save (uploaded_file : UploadedFile) : M Document :=
  fun st =>
    let id := next_id st in
    let doc := mkDocument id (fst (storage sv uploaded_file id))
                             (snd (storage sv uploaded_file id)) in
    (Return doc,
     mkState (session st) (<[id := doc]> (documents st)) (id + 1)
             (vectorstore_dir st) (vectorstores st) (tmp_files st)
             (trace st ++ [EvSave id])).

(** The primary key the ORM looks up for [id=v]: it applies [int] to the
    value, so a string that is a number is accepted, another string raises
    [ValueError] and a list raises [TypeError]. *)
Definition id_of_value (v : value) : Exn + Z :=
  match v with
  | VInt n => inr n
  | VStr s => match int_of_str sv s with
              | Some n => inr n
              | None => inl ValueError
              end
  | VList _ => inl TypeError
  end.

(** [Document.objects.get(id=doc_id)], as the ORM does it: the row with
    that primary key; [Document.DoesNotExist] is raised when there is
    none. *)
Definition Document_objects_get (id : value) : M Document :=
  match id_of_value id with
  | inr n =>
      row <- gets (fun st => documents st !! n) ;;
      call row DoesNotExist
  | inl e => raise e
  end.

(** [request.session.get(key)] and [request.session.get(key, default)] *)
Definition session_get (key : string) : M (option value) :=
  gets (fun st => session st !! key).
Definition session_get_default (key : string) (d : value) : M value :=
  gets (fun st => default d (session st !! key)).
(** [request.session[key] = v] *)
Definition session_set (key : string) (v : value) : M unit :=
  modify (set_session (insert key v)).
(** [request.session.pop(key, None)] *)
Definition session_pop (key : string) : M unit :=
  modify (set_session (delete key)).

(** [conversation.append(entry)] *)
Definition append (conversation : value) (e : Entry) : M value :=
  match conversation with
  | VList l => ret (VList (l ++ [e]))
  | _ => raise AttributeError
  end.

(** [for key in keys: body(key)] *)
Fixpoint for_each {A} (keys : list A) (body : A -> M unit) : M unit :=
  match keys with
  | [] => ret tt
  | key :: rest => body key ;;; for_each rest body
  end.

(** The body of the upload branch; [None] when it ends without a
    [return] (the form was invalid). *)
Definition home_upload (request : Request) (upload_form : DocumentUploadForm)
    (question_form : QuestionForm) : M (option Response) :=
  modify (log EvUploadIsValid) ;;;
  match upload_form with
  | DocumentUploadForm_new => ret None
  | DocumentUploadForm_bound file =>
      match clean_file file with
      | inl _ => ret None
      | inr uploaded_file =>
          doc <- Document_save uploaded_file ;;
          let filename := name uploaded_file in
          session_set "uploaded_filename" (VStr filename) ;;;
          session_set "document_id" (VInt (doc_id doc)) ;;;
          session_set "conversation" (VList []) ;;;
          get_vectorstore doc ;;;
          ret (Some (upload_success_html (Some (VStr filename)) question_form
                                         (VList []) true))
      end
  end.

(** The body of the ask branch; it always returns. *)
Definition home_ask (request : Request) (upload_form : DocumentUploadForm)
    (question_form : QuestionForm) (filename : option value) : M Response :=
  if negb (truthy filename) then
    ret (upload_html upload_form (Some "Please upload a document first."))
  else
    doc_id <- session_get "document_id" ;;
    doc <- (if truthy doc_id
            then match doc_id with
                 | Some v => d <- Document_objects_get v ;; ret (Some d)
                 | None => ret None
                 end
            else ret None) ;;
    match doc with
    | None => ret (upload_html upload_form (Some "File missing."))
    | Some doc =>
        vectorstore <- get_vectorstore doc ;;
        modify (log EvQuestionIsValid) ;;;
        (match question_form with
         | QuestionForm_new => ret tt
         | QuestionForm_bound raw =>
             match clean_question raw with
             | inl _ => ret tt
             | inr question =>
                 modify (log (EvLLM question)) ;;;
                 answer <- call (qa_run sv vectorstore question)
                                CompletionError ;;
                 conversation <- session_get_default "conversation" (VList []) ;;
                 conversation <- append conversation (mkEntry question answer) ;;
                 session_set "conversation" conversation
             end
         end) ;;;
        conversation <- session_get_default "conversation" (VList []) ;;
        ret (upload_success_html filename QuestionForm_new conversation false)
    end.

Definition home_reset (upload_form : DocumentUploadForm) : M Response :=
  for_each ["conversation"; "uploaded_filename"; "document_id"] session_pop ;;;
  ret (upload_html upload_form None).

Definition home_clear : M Response :=
  session_set "conversation" (VList []) ;;;
  filename <- session_get "uploaded_filename" ;;
  ret (upload_success_html filename QuestionForm_new (VList []) true).

Definition is_POST (request : Request) : bool :=
  String.eqb (method request) "POST".

Definition home (request : Request) : M Response :=
  let upload_form := DocumentUploadForm_new in
  let question_form := QuestionForm_new in
  filename <- session_get "uploaded_filename" ;;
  if is_POST request && in_POST "upload_file" request then
    let upload_form := DocumentUploadForm_bound (FILES request !! "file") in
    r <- home_upload request upload_form question_form ;;
    match r with
    | Some response => ret response
    | None => ret (upload_html upload_form None)
    end
  else if is_POST request && in_POST "ask_question" request then
    let question_form := QuestionForm_bound (POST request !! "question") in
    home_ask request upload_form question_form filename
  else if is_POST request && in_POST "reset" request then
    home_reset upload_form
  else if is_POST request && in_POST "clear_chat" request then
    home_clear
  else
    ret (upload_html upload_form None).

End DocChat.

Arguments Services Index : clear implicits.
Arguments State Index : clear implicits.
Arguments M Index A : clear implicits.

(** ** A concrete deployment, used to run the handler on examples *)

Module Demo.

(** The index is the list of chunk texts; every service succeeds. *)
Definition services : Services (list string) := {|
  storage := fun f _ => (String.append "/media/" (name f),
                         String.append "/srv/media/" (name f));
  int_of_str := fun _ => None;
  isfile := fun _ => true;
  empty_store := [];
  http_get := fun _ => Some "%PDF-1.4";
  pdf_load := fun _ => Some ["Total revenue was 12 million."];
  split_documents := fun _ _ pages => pages;
  from_documents := fun texts => Some texts;
  qa_run := fun _ q => Some (text_of_string "Answer to: " ++ q)
|}.

(** As [services], but the PDF parser fails. *)
Definition broken_pdf : Services (list string) := {|
  storage := storage services;
  int_of_str := int_of_str services;
  isfile := isfile services;
  empty_store := empty_store services;
  http_get := http_get services;
  pdf_load := fun _ => None;
  split_documents := split_documents services;
  from_documents := from_documents services;
  qa_run := qa_run services
|}.

Definition empty_state : State (list string) :=
  mkState ∅ ∅ 1 false ∅ [] [].

Definition report : UploadedFile := mkUploadedFile "report.pdf" "%PDF-1.4 ...".

Definition post (fields : list (string * string))
    (files : list (string * UploadedFile)) : Request :=
  mkRequest "POST"
    (list_to_map (List.map (fun kv => (fst kv, text_of_string (snd kv))) fields))
    (list_to_map files).

Definition upload_request : Request :=
  post [("upload_file", "")] [("file", report)].
Definition ask_request (q : string) : Request :=
  post [("ask_question", ""); ("question", q)] [].
Definition reset_request : Request := post [("reset", "")] [].
Definition clear_request : Request := post [("clear_chat", "")] [].

(** The state after uploading [report]. *)
Definition loaded_state : State (list string) :=
  snd (home services upload_request empty_state).

(** A session that still names document 7 although no such row exists. *)
Definition stale_state : State (list string) :=
  mkState (<["uploaded_filename" := VStr "report.pdf"]>
             (<["document_id" := VInt 7]> (<["conversation" := VList []]> ∅)))
          ∅ 8 true ∅ [] [].

(** The state after one question on [loaded_state]. *)
Definition asked_state : State (list string) :=
  snd (home services (ask_request "What is the total revenue?") loaded_state).

Definition report_doc : Document :=
  mkDocument 1 "/media/report.pdf" "/srv/media/report.pdf".

Definition report_index : list string := ["Total revenue was 12 million."].

(** As [services], but the embedding service fails. *)
Definition broken_embedding : Services (list string) := {|
  storage := storage services;
  int_of_str := int_of_str services;
  isfile := isfile services;
  empty_store := empty_store services;
  http_get := http_get services;
  pdf_load := pdf_load services;
  split_documents := split_documents services;
  from_documents := fun _ => None;
  qa_run := qa_run services
|}.

(** As [services], but no local file exists. *)
Definition no_files : Services (list string) := {|
  storage := storage services;
  int_of_str := int_of_str services;
  isfile := fun _ => false;
  empty_store := empty_store services;
  http_get := http_get services;
  pdf_load := pdf_load services;
  split_documents := split_documents services;
  from_documents := from_documents services;
  qa_run := qa_run services
|}.

(** The euro sign, U+20AC: one code point. *)
Definition euro : N := 8364%N.

(** As [services], but the completion service fails. *)
Definition broken_llm : Services (list string) := {|
  storage := storage services;
  int_of_str := int_of_str services;
  isfile := isfile services;
  empty_store := empty_store services;
  http_get := http_get services;
  pdf_load := pdf_load services;
  split_documents := split_documents services;
  from_documents := from_documents services;
  qa_run := fun _ _ => None
|}.

(** A session with a filename but no document id. *)
Definition no_id_state : State (list string) :=
  mkState (<["uploaded_filename" := VStr "report.pdf"]> ∅) ∅ 1 false ∅ [] [].

(** A request that carries all four markers and a file. *)
Definition all_markers_request : Request :=
  post [("clear_chat", ""); ("reset", ""); ("ask_question", "");
        ("upload_file", ""); ("question", "What is the total revenue?")]
       [("file", report)].

(** A document hosted remotely. *)
Definition remote_doc : Document :=
  mkDocument 5 "https://res.example.com/report.pdf" "report.pdf".

End Demo.

(** ** Classifying submissions (the words of the specification) *)

(** The four action markers, highest precedence first. *)
Definition markers : list string :=
  ["upload_file"; "ask_question"; "reset"; "clear_chat"].

Inductive Action := Upload | Ask | Reset | Clear | Default.

Definition action_of (marker : string) : Action :=
  if String.eqb marker "upload_file" then Upload
  else if String.eqb marker "ask_question" then Ask
  else if String.eqb marker "reset" then Reset
  else if String.eqb marker "clear_chat" then Clear
  else Default.

(** The action of a request: that of the first marker, in precedence order,
    that the body of a POST contains; [Default] for anything else. *)
Definition classify (request : Request) : Action :=
  if is_POST request
  then match List.find (fun m => in_POST m request) markers with
       | Some m => action_of m
       | None => Default
       end
  else Default.

(** What each action does, one branch per action. *)
Definition branch {Index} (sv : Services Index) (a : Action)
    (request : Request) : M Index Response :=
  match a with
  | Upload =>
      let upload_form := DocumentUploadForm_bound (FILES request !! "file") in
      bind (home_upload sv request upload_form QuestionForm_new)
           (fun r => match r with
                     | Some response => ret response
                     | None => ret (upload_html upload_form None)
                     end)
  | Ask =>
      bind (session_get "uploaded_filename")
           (home_ask sv request DocumentUploadForm_new
                     (QuestionForm_bound (POST request !! "question")))
  | Reset => home_reset DocumentUploadForm_new
  | Clear => home_clear
  | Default => ret (upload_html DocumentUploadForm_new None)
  end.

(** The index-building pipeline in the words of the specification: "run
    Loader Resolver, extract text, Chunker, embed each chunk, construct a
    similarity index"; [None] when a stage fails. *)
Definition resolve_loader {Index} (sv : Services Index) (doc : Document)
    : option Loader :=
  if String.prefix "http" (file_url doc)
  then PyPDFLoader_tmp <$> http_get sv (file_url doc)
  else if isfile sv (file_path doc)
       then Some (PyPDFLoader_path (file_path doc))
       else None.

Definition build_index {Index} (sv : Services Index) (doc : Document)
    : option Index :=
  ld ← resolve_loader sv doc;
  pages ← pdf_load sv ld;
  from_documents sv (split_documents sv 1000 100 pages).

(** The index [getOrBuildIndex] yields: the persisted one if there is one,
    a fresh build otherwise. *)
Definition index_for {Index} (sv : Services Index) (doc : Document)
    (stores : gmap Z Index) : option Index :=
  match stores !! doc_id doc with
  | Some idx => Some idx
  | None => build_index sv doc
  end.

(** The temporary file a loader was constructed on, if any. *)
Definition tmp_of_loader (ld : Loader) : list string :=
  match ld with
  | PyPDFLoader_tmp body => [body]
  | PyPDFLoader_path _ => []
  end.

(** The download that precedes a build, for a remote document. *)
Definition download_events (doc : Document) : list Event :=
  if String.prefix "http" (file_url doc) then [EvHttpGet (file_url doc)] else [].

(** The calls a build makes before the index is persisted. *)
Definition is_build_event (ev : Event) : bool :=
  match ev with
  | EvHttpGet _ | EvPdfLoad _ | EvEmbed _ => true
  | _ => false
  end.

(** The error messages a rendered page shows. *)
Definition rendered_errors (r : Response) : list string :=
  match r with
  | upload_html form error =>
      upload_form_errors form ++ match error with Some e => [e] | None => [] end
  | upload_success_html _ question_form _ _ => question_form_errors question_form
  end.

(** The conversation key is absent or holds a list. *)
Definition conversation_ok (s : gmap string value) : bool :=
  match s !! "conversation" with
  | None | Some (VList _) => true
  | _ => false
  end.

(** [session.get("conversation", [])] as a list *)
Definition conversation_of (s : gmap string value) : list Entry :=
  match s !! "conversation" with
  | Some (VList l) => l
  | _ => []
  end.

(** ** Vocabulary for the further properties *)

Definition starts_with_space (s : text) : bool :=
  match s with
  | [] => false
  | c :: _ => is_space c
  end.

Fixpoint ends_with_space (s : text) : bool :=
  match s with
  | [] => false
  | [c] => is_space c
  | _ :: s' => ends_with_space s'
  end.

(** The exceptions of the third-party services: download, loader, parser,
    embedding, question answering. *)
Definition is_service_error (e : Exn) : bool :=
  match e with
  | HTTPError | NotAFile | PdfError | EmbeddingError | CompletionError => true
  | _ => false
  end.

(** What a build, started where no store was, leaves under the document's
    id: nothing when the loader or the parser fails, the empty store when
    the embedding fails, the index when all succeed. *)
Definition store_after_build {Index} (sv : Services Index) (doc : Document)
    : option Index :=
  match resolve_loader sv doc with
  | None => None
  | Some ld =>
      match pdf_load sv ld with
      | None => None
      | Some pages =>
          match from_documents sv (split_documents sv 1000 100 pages) with
          | Some idx => Some idx
          | None => Some (empty_store sv)
          end
      end
  end.

(** Invocations of [qa.run]. *)
Definition is_llm (ev : Event) : bool :=
  match ev with EvLLM _ => true | _ => false end.
(** Invocations of [Chroma.from_documents]. *)
Definition is_from_documents (ev : Event) : bool :=
  match ev with EvEmbed _ => true | _ => false end.
Definition is_save (ev : Event) : bool :=
  match ev with EvSave _ => true | _ => false end.
Definition is_http_get (ev : Event) : bool :=
  match ev with EvHttpGet _ => true | _ => false end.

(** How many of the events satisfy [p]. *)
Definition count_events (p : Event -> bool) (evs : list Event) : nat :=
  length (List.filter p evs).

(** The request with one key removed from its body. *)
Definition without (key : string) (request : Request) : Request :=
  mkRequest (method request) (delete key (POST request)) (FILES request).

(** The marker that decides the action, if there is one. *)
Definition selected_marker (request : Request) : option string :=
  if is_POST request
  then List.find (fun m => in_POST m request) markers
  else None.

(** The row [doc.save()] creates for an uploaded file. *)
Definition new_document {Index} (sv : Services Index) (file : UploadedFile)
    (st : State Index) : Document :=
  mkDocument (next_id st) (fst (storage sv file (next_id st)))
             (snd (storage sv file (next_id st))).

(** The state the upload branch reaches after [doc.save()] and the three
    session writes, before it asks for the index. *)
Definition uploaded_state {Index} (sv : Services Index) (file : UploadedFile)
    (st : State Index) : State Index :=
  mkState (<["conversation" := VList []]>
             (<["document_id" := VInt (next_id st)]>
                (<["uploaded_filename" := VStr (name file)]> (session st))))
          (<[next_id st := new_document sv file st]> (documents st))
          (next_id st + 1) (vectorstore_dir st) (vectorstores st)
          (tmp_files st) (trace st ++ [EvUploadIsValid; EvSave (next_id st)]).

(** Every row is stored under its own id, and ids are below the next
    primary key. *)
Definition documents_ok {Index} (st : State Index) : Prop :=
  forall n doc, documents st !! n = Some doc -> doc_id doc = n /\ n < next_id st.

(** The session is one the handler can have written: filename and document
    id are both absent, or a non-empty name and the id of an existing row;
    the conversation is absent or a list. *)
Definition session_ok {Index} (st : State Index) : Prop :=
  conversation_ok (session st) = true /\
  match session st !! "uploaded_filename", session st !! "document_id" with
  | None, None => True
  | Some (VStr f), Some (VInt n) => f <> "" /\ is_Some (documents st !! n)
  | _, _ => False
  end.

(** * Properties *)

Section Properties.

Context {Index : Type}.
Variable sv : Services Index.
Implicit Types (st : State Index) (request : Request).

Ltac run :=
  unfold home, branch;
  unfold home_ask, home_reset, home_clear, home_upload,
    session_get, session_get_default, session_set, session_pop,
    Document_objects_get, bind, gets, modify, ret, raise, call; simpl.

Lemma classify_upload request :
  is_POST request = true -> in_POST "upload_file" request = true ->
  classify request = Upload.
Proof. intros HP H. unfold classify, markers. simpl. now rewrite HP, H. Qed.

Lemma classify_ask request :
  is_POST request = true -> in_POST "upload_file" request = false ->
  in_POST "ask_question" request = true -> classify request = Ask.
Proof. intros HP H1 H2. unfold classify, markers. simpl. now rewrite HP, H1, H2. Qed.

Lemma classify_reset request :
  is_POST request = true -> in_POST "upload_file" request = false ->
  in_POST "ask_question" request = false ->
  in_POST "reset" request = true -> classify request = Reset.
Proof.
  intros HP H1 H2 H3. unfold classify, markers. simpl.
  now rewrite HP, H1, H2, H3.
Qed.

Lemma classify_clear request :
  is_POST request = true -> in_POST "upload_file" request = false ->
  in_POST "ask_question" request = false ->
  in_POST "reset" request = false ->
  in_POST "clear_chat" request = true -> classify request = Clear.
Proof.
  intros HP H1 H2 H3 H4. unfold classify, markers. simpl.
  now rewrite HP, H1, H2, H3, H4.
Qed.

(** Inversion of [classify]: what the request looks like for each action. *)
Lemma classify_inv request :
  match classify request with
  | Upload => is_POST request = true /\ in_POST "upload_file" request = true
  | Ask => is_POST request = true /\ in_POST "upload_file" request = false
           /\ in_POST "ask_question" request = true
  | Reset => is_POST request = true /\ in_POST "upload_file" request = false
             /\ in_POST "ask_question" request = false
             /\ in_POST "reset" request = true
  | Clear => is_POST request = true /\ in_POST "upload_file" request = false
             /\ in_POST "ask_question" request = false
             /\ in_POST "reset" request = false
             /\ in_POST "clear_chat" request = true
  | Default => is_POST request = false
               \/ (in_POST "upload_file" request = false
                   /\ in_POST "ask_question" request = false
                   /\ in_POST "reset" request = false
                   /\ in_POST "clear_chat" request = false)
  end.
Proof.
  unfold classify, markers. simpl.
  destruct (is_POST request); [| now left].
  destruct (in_POST "upload_file" request); [now simpl |].
  destruct (in_POST "ask_question" request); [now simpl |].
  destruct (in_POST "reset" request); [now simpl |].
  destruct (in_POST "clear_chat" request); [now simpl |].
  right. tauto.
Qed.

(** The if/elif chain of [home] runs the branch of the request's action. *)
Lemma home_branch request st :
  home sv request st = branch sv (classify request) request st.
Proof.
  pose proof (classify_inv request) as H.
  destruct (classify request); unfold home, branch.
  - destruct H as [HP H1]. unfold bind at 1, session_get, gets. simpl.
    now rewrite HP, H1.
  - destruct H as (HP & H1 & H2). unfold bind, session_get, gets. simpl.
    now rewrite HP, H1, H2.
  - destruct H as (HP & H1 & H2 & H3). unfold bind at 1, session_get, gets.
    simpl. now rewrite HP, H1, H2, H3.
  - destruct H as (HP & H1 & H2 & H3 & H4).
    unfold bind at 1, session_get, gets. simpl. now rewrite HP, H1, H2, H3, H4.
  - unfold bind at 1, session_get, gets. simpl.
    destruct H as [HP | (H1 & H2 & H3 & H4)].
    + now rewrite HP.
    + rewrite H1, H2, H3, H4. now rewrite !andb_false_r.
Qed.

(** *** The index cache *)

Lemma get_vectorstore_cached doc st idx :
  vectorstores st !! doc_id doc = Some idx ->
  get_vectorstore sv doc st
  = (Return idx, log (EvChromaOpen (doc_id doc)) (makedirs st)).
Proof.
  intros H. unfold get_vectorstore, bind, gets, modify, ret. simpl.
  now rewrite H.
Qed.

(** [get_vectorstore] without a persisted index, stage by stage. *)
Lemma get_vectorstore_uncached doc st :
  vectorstores st !! doc_id doc = None ->
  get_vectorstore sv doc st
  = match resolve_loader sv doc with
    | None =>
        (Raise (if String.prefix "http" (file_url doc)
                then HTTPError else NotAFile),
         mkState (session st) (documents st) (next_id st) true
           (vectorstores st) (tmp_files st)
           (trace st ++ download_events doc))
    | Some ld =>
        match pdf_load sv ld with
        | None =>
            (Raise PdfError,
             mkState (session st) (documents st) (next_id st) true
               (vectorstores st) (tmp_files st ++ tmp_of_loader ld)
               (trace st ++ download_events doc ++ [EvPdfLoad ld]))
        | Some pages =>
            match from_documents sv (split_documents sv 1000 100 pages) with
            | None =>
                (Raise EmbeddingError,
                 mkState (session st) (documents st) (next_id st) true
                   (<[doc_id doc := empty_store sv]> (vectorstores st))
                   (tmp_files st ++ tmp_of_loader ld)
                   (trace st ++ download_events doc
                      ++ [EvPdfLoad ld;
                          EvEmbed (split_documents sv 1000 100 pages)]))
            | Some idx =>
                (Return idx,
                 mkState (session st) (documents st) (next_id st) true
                   (<[doc_id doc := idx]> (vectorstores st))
                   (tmp_files st ++ tmp_of_loader ld)
                   (trace st ++ download_events doc
                      ++ [EvPdfLoad ld;
                          EvEmbed (split_documents sv 1000 100 pages);
                          EvPersist (doc_id doc)]))
            end
        end
    end.
Proof.
  intros Hnone.
  unfold resolve_loader, download_events.
  unfold get_vectorstore, Chroma_from_documents, get_loader, PyPDFLoader,
    load_pdf_from_cloudinary, bind, gets, modify, ret, raise, call.
  simpl. rewrite Hnone.
  assert (Hdone : forall (o : Outcome Index) (st1 st2 : State Index),
             st1 = st2 -> (o, st1) = (o, st2)) by (intros; now subst).
  destruct (String.prefix "http" (file_url doc)); simpl.
  - destruct (http_get sv (file_url doc)) as [body|]; simpl; [| reflexivity].
    destruct (pdf_load sv (PyPDFLoader_tmp body)) as [pages|]; simpl.
    + destruct (from_documents sv (split_documents sv 1000 100 pages));
        simpl; unfold persist, log; simpl;
        rewrite <- ?app_assoc, ?insert_insert_eq; reflexivity.
    + unfold log; simpl. rewrite <- ?app_assoc. reflexivity.
  - destruct (isfile sv (file_path doc)); simpl;
      [| unfold log; simpl; now rewrite ?app_nil_r].
    destruct (pdf_load sv (PyPDFLoader_path (file_path doc))) as [pages|];
      simpl.
    + destruct (from_documents sv (split_documents sv 1000 100 pages));
        simpl; unfold persist, log; simpl;
        rewrite <- ?app_assoc, ?insert_insert_eq, ?app_nil_r; reflexivity.
    + unfold log; simpl. now rewrite ?app_nil_r.
Qed.

Lemma get_vectorstore_built doc st idx :
  vectorstores st !! doc_id doc = None ->
  build_index sv doc = Some idx ->
  exists ld pages tmp,
    resolve_loader sv doc = Some ld /\
    pdf_load sv ld = Some pages /\
    from_documents sv (split_documents sv 1000 100 pages) = Some idx /\
    get_vectorstore sv doc st
    = (Return idx,
       mkState (session st) (documents st) (next_id st) true
         (<[doc_id doc := idx]> (vectorstores st)) (tmp_files st ++ tmp)
         (trace st ++ download_events doc
            ++ [EvPdfLoad ld; EvEmbed (split_documents sv 1000 100 pages);
                EvPersist (doc_id doc)])).
Proof.
  intros Hnone Hbuild. rewrite (get_vectorstore_uncached _ _ Hnone).
  unfold build_index in Hbuild.
  destruct (resolve_loader sv doc) as [ld|]; [| discriminate].
  simpl in Hbuild.
  destruct (pdf_load sv ld) as [pages|] eqn:Hpages; [| discriminate].
  simpl in Hbuild. rewrite Hbuild.
  now exists ld, pages, (tmp_of_loader ld).
Qed.

Lemma build_events_download doc :
  Forall (fun ev => is_build_event ev = true) (download_events doc).
Proof.
  unfold download_events.
  destruct (String.prefix "http" (file_url doc)); repeat constructor.
Qed.

(** A failed build: nothing is persisted, except that a failed embedding
    leaves the empty store that [Chroma.from_documents] created. *)
Lemma get_vectorstore_failed doc st :
  vectorstores st !! doc_id doc = None ->
  build_index sv doc = None ->
  exists e tmp evs stores',
    get_vectorstore sv doc st
    = (Raise e,
       mkState (session st) (documents st) (next_id st) true
         stores' (tmp_files st ++ tmp) (trace st ++ evs))
    /\ e <> CompletionError
    /\ Forall (fun ev => is_build_event ev = true) evs
    /\ (stores' = vectorstores st
        \/ (e = EmbeddingError
            /\ stores' = <[doc_id doc := empty_store sv]> (vectorstores st))).
Proof.
  intros Hnone Hbuild. rewrite (get_vectorstore_uncached _ _ Hnone).
  unfold build_index in Hbuild.
  pose proof (build_events_download doc) as Hdl.
  destruct (resolve_loader sv doc) as [ld|].
  - simpl in Hbuild. destruct (pdf_load sv ld) as [pages|].
    + simpl in Hbuild. rewrite Hbuild.
      eexists _, (tmp_of_loader ld), _, _. split; [reflexivity |].
      split; [discriminate |]. split; [| right; now split].
      apply Forall_app. split; [exact Hdl | repeat constructor].
    + eexists _, (tmp_of_loader ld), _, _. split; [reflexivity |].
      split; [discriminate |]. split; [| now left].
      apply Forall_app. split; [exact Hdl | repeat constructor].
  - eexists _, [], _, _. rewrite app_nil_r. split; [reflexivity |].
    split; [now destruct (String.prefix "http" (file_url doc)) |].
    split; [exact Hdl | now left].
Qed.

(** Asking for the index again after a build opens the persisted one;
    nothing is embedded the second time. *)
Lemma get_vectorstore_twice doc st idx st1 :
  vectorstores st !! doc_id doc = None ->
  get_vectorstore sv doc st = (Return idx, st1) ->
  get_vectorstore sv doc st1
  = (Return idx, log (EvChromaOpen (doc_id doc)) (makedirs st1)).
Proof.
  intros Hnone Hfirst. apply get_vectorstore_cached.
  destruct (build_index sv doc) as [idx'|] eqn:Hb.
  - destruct (get_vectorstore_built _ _ _ Hnone Hb)
      as (ld & pages & tmp & _ & _ & _ & Heq).
    rewrite Heq in Hfirst. injection Hfirst as <- <-. simpl.
    apply lookup_insert_eq.
  - destruct (get_vectorstore_failed _ _ Hnone Hb)
      as (e & tmp & evs & stores' & Heq & _).
    rewrite Heq in Hfirst. discriminate.
Qed.

(** Summary: the outcome of [get_vectorstore] is decided by [index_for];
    the session and the document table are not touched, and a normal
    return ends with the index being opened or persisted. *)
Lemma get_vectorstore_outcome doc st :
  match index_for sv doc (vectorstores st) with
  | Some idx =>
      exists tmp pre ev,
        get_vectorstore sv doc st
        = (Return idx,
           mkState (session st) (documents st) (next_id st) true
             (<[doc_id doc := idx]> (vectorstores st)) (tmp_files st ++ tmp)
             (trace st ++ pre ++ [ev]))
        /\ (ev = EvChromaOpen (doc_id doc) \/ ev = EvPersist (doc_id doc))
        /\ Forall (fun ev => is_build_event ev = true) pre
  | None =>
      exists e tmp evs stores',
        get_vectorstore sv doc st
        = (Raise e,
           mkState (session st) (documents st) (next_id st) true
             stores' (tmp_files st ++ tmp) (trace st ++ evs))
        /\ e <> CompletionError
        /\ Forall (fun ev => is_build_event ev = true) evs
        /\ (stores' = vectorstores st
            \/ (e = EmbeddingError
                /\ stores'
                   = <[doc_id doc := empty_store sv]> (vectorstores st)))
  end.
Proof.
  unfold index_for.
  destruct (vectorstores st !! doc_id doc) as [idx|] eqn:Hst.
  - exists [], [], (EvChromaOpen (doc_id doc)).
    rewrite (get_vectorstore_cached _ _ _ Hst).
    rewrite insert_id by assumption. unfold log, makedirs; simpl.
    rewrite app_nil_r.
    repeat split; [now left | constructor].
  - destruct (build_index sv doc) as [idx|] eqn:Hb.
    + destruct (get_vectorstore_built _ _ _ Hst Hb)
        as (ld & pages & tmp & _ & _ & _ & Heq).
      exists tmp,
        (download_events doc
           ++ [EvPdfLoad ld; EvEmbed (split_documents sv 1000 100 pages)]),
        (EvPersist (doc_id doc)).
      rewrite Heq. rewrite <- !app_assoc. simpl.
      repeat split; [now right |].
      apply Forall_app. split; [apply build_events_download |].
      repeat constructor.
    + exact (get_vectorstore_failed _ _ Hst Hb).
Qed.

(** *** The ask branch *)

Local Arguments get_vectorstore : simpl never.

Lemma home_ask_no_filename request st :
  classify request = Ask ->
  truthy (session st !! "uploaded_filename") = false ->
  home sv request st
  = (Return (upload_html DocumentUploadForm_new
               (Some "Please upload a document first.")), st).
Proof.
  intros Hc Hf. rewrite home_branch, Hc. run. now rewrite Hf.
Qed.

Lemma home_ask_deleted_document request st n :
  classify request = Ask ->
  truthy (session st !! "uploaded_filename") = true ->
  session st !! "document_id" = Some (VInt n) -> n <> 0 ->
  documents st !! n = None ->
  home sv request st = (Raise DoesNotExist, st).
Proof.
  intros Hc Hf Hid Hn Hdoc. rewrite home_branch, Hc. run.
  rewrite Hf. simpl. rewrite Hid. simpl.
  destruct (Z.eqb_spec n 0) as [|_]; [contradiction |]. simpl.
  now rewrite Hdoc.
Qed.

(** With a document loaded, the ask branch is the index access followed
    by validation, the model call and the append. *)
Lemma home_ask_loaded request st n doc :
  classify request = Ask ->
  truthy (session st !! "uploaded_filename") = true ->
  session st !! "document_id" = Some (VInt n) -> n <> 0 ->
  documents st !! n = Some doc ->
  home sv request st =
  match get_vectorstore sv doc st with
  | (Raise e, st1) => (Raise e, st1)
  | (Return idx, st1) =>
      let st2 := log EvQuestionIsValid st1 in
      match clean_question (POST request !! "question") with
      | inl _ =>
          (Return (upload_success_html (session st !! "uploaded_filename")
                     QuestionForm_new
                     (default (VList []) (session st2 !! "conversation"))
                     false), st2)
      | inr q =>
          let st3 := log (EvLLM q) st2 in
          match qa_run sv idx q with
          | None => (Raise CompletionError, st3)
          | Some a =>
              match default (VList []) (session st3 !! "conversation") with
              | VList l =>
                  let c := VList (l ++ [mkEntry q a]) in
                  (Return (upload_success_html
                             (session st !! "uploaded_filename")
                             QuestionForm_new c false),
                   set_session (insert "conversation" c) st3)
              | _ => (Raise AttributeError, st3)
              end
          end
      end
  end.
Proof.
  intros Hc Hf Hid Hn Hdoc. rewrite home_branch, Hc. run.
  rewrite Hf. simpl. rewrite Hid. simpl.
  destruct (Z.eqb_spec n 0) as [|_]; [contradiction |]. simpl.
  rewrite Hdoc. unfold ret at 1. simpl.
  destruct (get_vectorstore sv doc st) as [[idx|e] st1]; [| reflexivity].
  destruct (clean_question (POST request !! "question")) as [err|q];
    [reflexivity |].
  simpl. destruct (qa_run sv idx q) as [a|]; [| reflexivity].
  unfold ret. simpl. unfold append.
  destruct (default (VList []) (session st1 !! "conversation"));
    try reflexivity.
  unfold ret. simpl. now rewrite lookup_insert_eq.
Qed.

(** *** The claims *)

(** C2: [get_vectorstore] on a document whose id already has a persisted
    index returns that index; the only call it makes is opening the store
    (no embedding call, nothing rebuilt or rewritten).  Without a persisted
    index it resolves the loader, loads the pages, splits them, embeds the
    chunks, persists the index under the document's id and returns it.  If
    a stage of that pipeline fails it raises and no index is persisted:
    the stores are as before, except that a failed embedding leaves the
    empty store [Chroma.from_documents] had created under the document's
    id, which is what a later call finds there. *)
Theorem get_vectorstore_load_or_build doc st :
  match vectorstores st !! doc_id doc with
  | Some idx =>
      exists st1,
        get_vectorstore sv doc st = (Return idx, st1)
        /\ trace st1 = trace st ++ [EvChromaOpen (doc_id doc)]
        /\ vectorstores st1 = vectorstores st
        /\ tmp_files st1 = tmp_files st
  | None =>
      match build_index sv doc with
      | Some idx =>
          exists st1 ld pages,
            get_vectorstore sv doc st = (Return idx, st1)
            /\ resolve_loader sv doc = Some ld
            /\ pdf_load sv ld = Some pages
            /\ from_documents sv (split_documents sv 1000 100 pages) = Some idx
            /\ trace st1
               = trace st ++ download_events doc
                   ++ [EvPdfLoad ld;
                       EvEmbed (split_documents sv 1000 100 pages);
                       EvPersist (doc_id doc)]
            /\ vectorstores st1 = <[doc_id doc := idx]> (vectorstores st)
      | None =>
          exists e st1,
            get_vectorstore sv doc st = (Raise e, st1)
            /\ ((e <> EmbeddingError /\ vectorstores st1 = vectorstores st)
                \/ (e = EmbeddingError
                    /\ vectorstores st1
                       = <[doc_id doc := empty_store sv]> (vectorstores st)
                    /\ get_vectorstore sv doc st1
                       = (Return (empty_store sv),
                          log (EvChromaOpen (doc_id doc)) (makedirs st1))))
      end
  end.
Proof.
  destruct (vectorstores st !! doc_id doc) as [idx|] eqn:Hst.
  - eexists. rewrite (get_vectorstore_cached _ _ _ Hst). now repeat split.
  - destruct (build_index sv doc) as [idx|] eqn:Hb.
    + destruct (get_vectorstore_built _ _ _ Hst Hb)
        as (ld & pages & tmp & Hld & Hp & Hfd & Heq).
      eexists _, ld, pages. rewrite Heq. now repeat split.
    + rewrite (get_vectorstore_uncached _ _ Hst).
      unfold build_index in Hb.
      destruct (resolve_loader sv doc) as [ld|].
      * simpl in Hb. destruct (pdf_load sv ld) as [pages|].
        -- simpl in Hb. rewrite Hb. eexists _, _. split; [reflexivity |].
           right. split; [reflexivity |]. split; [reflexivity |].
           apply get_vectorstore_cached. simpl. apply lookup_insert_eq.
        -- eexists _, _. split; [reflexivity |]. left. now split.
      * eexists _, _. split; [reflexivity |]. left.
        split; [now destruct (String.prefix "http" (file_url doc)) |].
        reflexivity.
Qed.

(** C4: an ask submission in a session with no uploaded filename is
    answered with the "Please upload a document first." page, and the whole
    state, so the conversation, the filename and the document id of the
    session, is left as it was. *)
Theorem ask_fresh_session_unchanged request st :
  classify request = Ask ->
  session st !! "uploaded_filename" = None ->
  home sv request st
  = (Return (upload_html DocumentUploadForm_new
               (Some "Please upload a document first.")), st).
Proof.
  intros Hc Hf. apply home_ask_no_filename; [assumption |].
  now rewrite Hf.
Qed.

(** C5: a reset submission returns normally, and in the state it leaves
    the filename, the document id and the conversation are all three absent
    from the session; the other keys and the rest of the state are as
    before. *)
Theorem reset_clears_all_three request st :
  classify request = Reset ->
  exists st',
    home sv request st = (Return (upload_html DocumentUploadForm_new None), st')
    /\ session st' !! "uploaded_filename" = None
    /\ session st' !! "document_id" = None
    /\ session st' !! "conversation" = None
    /\ (forall k : string,
          k <> "uploaded_filename" -> k <> "document_id" ->
          k <> "conversation" -> session st' !! k = session st !! k)
    /\ documents st' = documents st
    /\ vectorstores st' = vectorstores st
    /\ trace st' = trace st.
Proof.
  intros Hc. rewrite home_branch, Hc. run. eexists. split; [reflexivity |].
  simpl. repeat split.
  - rewrite lookup_delete_ne by discriminate. apply lookup_delete_eq.
  - apply lookup_delete_eq.
  - rewrite !lookup_delete_ne by discriminate. apply lookup_delete_eq.
  - intros k H1 H2 H3. now rewrite !lookup_delete_ne by congruence.
Qed.

Lemma ask_appends_entry_aux request st n doc idx q a :
  classify request = Ask ->
  truthy (session st !! "uploaded_filename") = true ->
  session st !! "document_id" = Some (VInt n) -> n <> 0 ->
  documents st !! n = Some doc ->
  index_for sv doc (vectorstores st) = Some idx ->
  clean_question (POST request !! "question") = inr q ->
  qa_run sv idx q = Some a ->
  conversation_ok (session st) = true ->
  exists st',
    home sv request st
    = (Return (upload_success_html (session st !! "uploaded_filename")
                 QuestionForm_new
                 (VList (conversation_of (session st) ++ [mkEntry q a]))
                 false), st')
    /\ session st'
       = <["conversation" :=
             VList (conversation_of (session st) ++ [mkEntry q a])]>
           (session st).
Proof.
  intros Hc Hf Hid Hn Hdoc Hidx Hq Ha Hok.
  rewrite (home_ask_loaded _ _ _ _ Hc Hf Hid Hn Hdoc).
  pose proof (get_vectorstore_outcome doc st) as Hout. rewrite Hidx in Hout.
  destruct Hout as (tmp & pre & ev & Heq & _). rewrite Heq. simpl.
  rewrite Hq, Ha.
  assert (Hconv : default (VList []) (session st !! "conversation")
                  = VList (conversation_of (session st))).
  { unfold conversation_ok in Hok. unfold conversation_of.
    destruct (session st !! "conversation") as [[| |l]|]; simpl;
      try discriminate; reflexivity. }
  rewrite Hconv. eexists. split; reflexivity.
Qed.

(** C7: a successful ask (document loaded, index available, question valid,
    model answered) appends exactly the entry of this question and answer
    at the end of the conversation; the entries recorded before keep their
    positions. *)
Theorem ask_appends_entry request st n doc idx q a :
  classify request = Ask ->
  truthy (session st !! "uploaded_filename") = true ->
  session st !! "document_id" = Some (VInt n) -> n <> 0 ->
  documents st !! n = Some doc ->
  index_for sv doc (vectorstores st) = Some idx ->
  clean_question (POST request !! "question") = inr q ->
  qa_run sv idx q = Some a ->
  conversation_ok (session st) = true ->
  exists st',
    home sv request st
    = (Return (upload_success_html (session st !! "uploaded_filename")
                 QuestionForm_new
                 (VList (conversation_of (session st) ++ [mkEntry q a]))
                 false), st')
    /\ conversation_of (session st')
       = conversation_of (session st) ++ [mkEntry q a]
    /\ length (conversation_of (session st'))
       = S (length (conversation_of (session st)))
    /\ (forall (i : nat) e, conversation_of (session st) !! i = Some e ->
                            conversation_of (session st') !! i = Some e)
    /\ (forall k : string, k <> "conversation" ->
                           session st' !! k = session st !! k).
Proof.
  intros Hc Hf Hid Hn Hdoc Hidx Hq Ha Hok.
  destruct (ask_appends_entry_aux _ _ _ _ _ _ _
              Hc Hf Hid Hn Hdoc Hidx Hq Ha Hok) as (st' & Heq & Hs).
  exists st'. split; [exact Heq |].
  assert (Hnew : conversation_of (session st')
                 = conversation_of (session st) ++ [mkEntry q a]).
  { rewrite Hs. unfold conversation_of at 1. now rewrite lookup_insert_eq. }
  rewrite Hnew. repeat split.
  - rewrite length_app. simpl. lia.
  - intros i e Hi. now apply lookup_app_l_Some.
  - intros k Hk. rewrite Hs. now rewrite lookup_insert_ne by congruence.
Qed.

(** C8: a valid upload submission persists the document under the next
    primary key, puts the session into the state "document loaded, no
    history" (filename and document id of the new upload, empty
    conversation), and then, in the same request, obtains the index for
    the new document, which is on disk when the handler returns. *)
Theorem upload_loads_document request st file idx :
  classify request = Upload ->
  clean_file (FILES request !! "file") = inr file ->
  index_for sv
    (mkDocument (next_id st) (fst (storage sv file (next_id st)))
                (snd (storage sv file (next_id st))))
    (vectorstores st) = Some idx ->
  exists st' pre ev,
    home sv request st
    = (Return (upload_success_html (Some (VStr (name file))) QuestionForm_new
                 (VList []) true), st')
    /\ documents st'
       = <[next_id st :=
             mkDocument (next_id st) (fst (storage sv file (next_id st)))
                        (snd (storage sv file (next_id st)))]> (documents st)
    /\ session st' !! "uploaded_filename" = Some (VStr (name file))
    /\ session st' !! "document_id" = Some (VInt (next_id st))
    /\ session st' !! "conversation" = Some (VList [])
    /\ vectorstores st' !! next_id st = Some idx
    /\ trace st'
       = trace st ++ [EvUploadIsValid; EvSave (next_id st)] ++ pre ++ [ev]
    /\ (ev = EvChromaOpen (next_id st) \/ ev = EvPersist (next_id st))
    /\ Forall (fun ev => is_build_event ev = true) pre.
Proof.
  intros Hc Hfile Hidx. rewrite home_branch, Hc. run. rewrite Hfile.
  unfold Document_save. simpl.
  match goal with
  | |- context [get_vectorstore sv ?d ?s] =>
      pose proof (get_vectorstore_outcome d s) as Hout
  end.
  simpl in Hout. rewrite Hidx in Hout.
  destruct Hout as (tmp & pre & ev & Heq & Hev & Hpre). rewrite Heq.
  eexists _, pre, ev. split; [reflexivity |]. simpl.
  repeat split; try assumption.
  - rewrite !lookup_insert_ne by discriminate. apply lookup_insert_eq.
  - rewrite lookup_insert_ne by discriminate. apply lookup_insert_eq.
  - apply lookup_insert_eq.
  - apply lookup_insert_eq.
  - now rewrite <- !app_assoc.
Qed.

(** C9: for an ask submission with a document loaded, the index is opened
    or built and persisted before the question form is validated and
    before the model is called, whether or not the question is valid; and
    when the index cannot be obtained the handler raises before either. *)
Theorem ask_index_before_validation request st n doc :
  classify request = Ask ->
  truthy (session st !! "uploaded_filename") = true ->
  session st !! "document_id" = Some (VInt n) -> n <> 0 ->
  documents st !! n = Some doc ->
  match index_for sv doc (vectorstores st) with
  | Some idx =>
      exists o st' pre ev,
        home sv request st = (o, st')
        /\ trace st'
           = trace st ++ pre ++ [ev] ++ [EvQuestionIsValid]
               ++ match clean_question (POST request !! "question") with
                  | inl _ => []
                  | inr q => [EvLLM q]
                  end
        /\ (ev = EvChromaOpen (doc_id doc) \/ ev = EvPersist (doc_id doc))
        /\ Forall (fun ev => is_build_event ev = true) pre
        /\ vectorstores st' !! doc_id doc = Some idx
  | None =>
      exists e st' evs,
        home sv request st = (Raise e, st')
        /\ trace st' = trace st ++ evs
        /\ Forall (fun ev => is_build_event ev = true) evs
  end.
Proof.
  intros Hc Hf Hid Hn Hdoc.
  rewrite (home_ask_loaded _ _ _ _ Hc Hf Hid Hn Hdoc).
  pose proof (get_vectorstore_outcome doc st) as Hout.
  destruct (index_for sv doc (vectorstores st)) as [idx|].
  - destruct Hout as (tmp & pre & ev & Heq & Hev & Hpre). rewrite Heq.
    assert (Hlk : forall (m : gmap Z Index),
               <[doc_id doc := idx]> m !! doc_id doc = Some idx)
      by (intros m; apply lookup_insert_eq).
    destruct (clean_question (POST request !! "question")) as [err|q]; simpl.
    + eexists _, _, pre, ev. split; [reflexivity |]. simpl.
      rewrite <- !app_assoc. now repeat split.
    + destruct (qa_run sv idx q) as [a|].
      * destruct (default (VList []) (session st !! "conversation"));
          (eexists _, _, pre, ev; split; [reflexivity |]; simpl;
           rewrite <- !app_assoc; now repeat split).
      * eexists _, _, pre, ev. split; [reflexivity |]. simpl.
        rewrite <- !app_assoc. now repeat split.
  - destruct Hout as (e & tmp & evs & stores' & Heq & _ & Hevs & _).
    rewrite Heq. eexists e, _, evs. now repeat split.
Qed.

Lemma home_clear_state request st :
  classify request = Clear ->
  home sv request st
  = (Return (upload_success_html (session st !! "uploaded_filename")
               QuestionForm_new (VList []) true),
     set_session (insert "conversation" (VList [])) st).
Proof.
  intros Hc. rewrite home_branch, Hc. run.
  now rewrite lookup_insert_ne by discriminate.
Qed.

(** C6: a clear submission sets the conversation to the empty list and
    leaves the filename and the document id of the session, and the
    documents and indexes, as they were; so an ask that follows in the same
    session, with the document and its index still there, a valid question
    and an answering model, succeeds and records its entry. *)
Theorem clear_keeps_document request st :
  classify request = Clear ->
  exists st',
    home sv request st
    = (Return (upload_success_html (session st !! "uploaded_filename")
                 QuestionForm_new (VList []) true), st')
    /\ session st' = <["conversation" := VList []]> (session st)
    /\ session st' !! "conversation" = Some (VList [])
    /\ session st' !! "uploaded_filename" = session st !! "uploaded_filename"
    /\ session st' !! "document_id" = session st !! "document_id"
    /\ documents st' = documents st
    /\ vectorstores st' = vectorstores st
    /\ trace st' = trace st
    /\ forall ask n doc idx q a,
         classify ask = Ask ->
         truthy (session st !! "uploaded_filename") = true ->
         session st !! "document_id" = Some (VInt n) -> n <> 0 ->
         documents st !! n = Some doc ->
         index_for sv doc (vectorstores st) = Some idx ->
         clean_question (POST ask !! "question") = inr q ->
         qa_run sv idx q = Some a ->
         exists st'',
           home sv ask st'
           = (Return (upload_success_html (session st !! "uploaded_filename")
                        QuestionForm_new (VList [mkEntry q a]) false), st'')
           /\ session st'' !! "conversation" = Some (VList [mkEntry q a])
           /\ session st'' !! "uploaded_filename"
              = session st !! "uploaded_filename"
           /\ session st'' !! "document_id" = session st !! "document_id".
Proof.
  intros Hc. rewrite (home_clear_state _ _ Hc).
  set (st' := set_session (insert "conversation" (VList [])) st).
  exists st'. split; [reflexivity |]. simpl.
  split; [reflexivity |].
  split; [apply lookup_insert_eq |].
  split; [now rewrite lookup_insert_ne by discriminate |].
  split; [now rewrite lookup_insert_ne by discriminate |].
  do 3 (split; [reflexivity |]).
  intros ask n doc idx q a Ha Hf Hid Hn Hdoc Hidx Hq Hans.
  assert (Hf' : truthy (session st' !! "uploaded_filename") = true)
    by (simpl; now rewrite lookup_insert_ne by discriminate).
  assert (Hid' : session st' !! "document_id" = Some (VInt n))
    by (simpl; now rewrite lookup_insert_ne by discriminate).
  assert (Hok : conversation_ok (session st') = true)
    by (unfold conversation_ok; simpl; now rewrite lookup_insert_eq).
  destruct (ask_appends_entry_aux ask st' n doc idx q a
              Ha Hf' Hid' Hn Hdoc Hidx Hq Hans Hok) as (st'' & Heq & Hs).
  assert (Hconv : conversation_of (session st') = [])
    by (unfold conversation_of; simpl; now rewrite lookup_insert_eq).
  rewrite Hconv in Heq, Hs. simpl in Heq, Hs.
  replace (session st' !! "uploaded_filename")
    with (session st !! "uploaded_filename") in Heq
    by (simpl; now rewrite lookup_insert_ne by discriminate).
  exists st''. split; [exact Heq |]. rewrite Hs.
  split; [apply lookup_insert_eq |].
  split; now rewrite !lookup_insert_ne by discriminate.
Qed.

(** C10: whatever markers a request carries, [home] runs the one branch of
    the request's action, which for a POST is that of the first marker
    present in the order upload_file, ask_question, reset, clear_chat; a
    request that is no POST or carries none of the markers gets the upload
    form rendered and the state is left as it was. *)
Theorem home_dispatch_precedence request st :
  home sv request st = branch sv (classify request) request st
  /\ branch sv Default request st
     = (Return (upload_html DocumentUploadForm_new None), st)
  /\ (classify request = Default
      <-> is_POST request = false
          \/ Forall (fun m => in_POST m request = false) markers)
  /\ (classify request = Upload
      <-> is_POST request = true /\ in_POST "upload_file" request = true)
  /\ (classify request = Ask
      <-> is_POST request = true /\ in_POST "upload_file" request = false
          /\ in_POST "ask_question" request = true)
  /\ (classify request = Reset
      <-> is_POST request = true /\ in_POST "upload_file" request = false
          /\ in_POST "ask_question" request = false
          /\ in_POST "reset" request = true)
  /\ (classify request = Clear
      <-> is_POST request = true /\ in_POST "upload_file" request = false
          /\ in_POST "ask_question" request = false
          /\ in_POST "reset" request = false
          /\ in_POST "clear_chat" request = true).
Proof.
  split; [apply home_branch |]. split; [reflexivity |].
  pose proof (classify_inv request) as Hinv.
  split.
  { split.
    - intros Hd. rewrite Hd in Hinv.
      destruct Hinv as [H | (H1 & H2 & H3 & H4)]; [now left | right].
      unfold markers. now repeat constructor.
    - intros [HP | HF]; unfold classify.
      + now rewrite HP.
      + unfold markers in *.
        inversion HF as [| ? ? H1 HF1]; subst.
        inversion HF1 as [| ? ? H2 HF2]; subst.
        inversion HF2 as [| ? ? H3 HF3]; subst.
        inversion HF3 as [| ? ? H4 _]; subst.
        simpl. rewrite H1, H2, H3, H4. now destruct (is_POST request). }
  split.
  { split; [intros Hd; rewrite Hd in Hinv; exact Hinv |].
    intros [HP H]. now apply classify_upload. }
  split.
  { split; [intros Hd; rewrite Hd in Hinv; exact Hinv |].
    intros (HP & H1 & H2). now apply classify_ask. }
  split.
  { split; [intros Hd; rewrite Hd in Hinv; exact Hinv |].
    intros (HP & H1 & H2 & H3). now apply classify_reset. }
  split; [intros Hd; rewrite Hd in Hinv; exact Hinv |].
  intros (HP & H1 & H2 & H3 & H4). now apply classify_clear.
Qed.

(** An invalid question with a document loaded: the model is not called
    and the session is not touched, and the page that comes back carries a
    fresh question form, which shows no error. *)
Lemma ask_invalid_question request st n doc idx err :
  classify request = Ask ->
  truthy (session st !! "uploaded_filename") = true ->
  session st !! "document_id" = Some (VInt n) -> n <> 0 ->
  documents st !! n = Some doc ->
  index_for sv doc (vectorstores st) = Some idx ->
  clean_question (POST request !! "question") = inl err ->
  exists st' evs response,
    home sv request st = (Return response, st')
    /\ session st' = session st
    /\ trace st' = trace st ++ evs
    /\ (forall q, EvLLM q ∉ evs)
    /\ rendered_errors response = [].
Proof.
  intros Hc Hf Hid Hn Hdoc Hidx Hq.
  rewrite (home_ask_loaded _ _ _ _ Hc Hf Hid Hn Hdoc).
  pose proof (get_vectorstore_outcome doc st) as Hout. rewrite Hidx in Hout.
  destruct Hout as (tmp & pre & ev & Heq & Hev & Hpre). rewrite Heq.
  simpl. rewrite Hq.
  eexists _, (pre ++ [ev] ++ [EvQuestionIsValid]), _.
  split; [reflexivity |]. simpl. rewrite <- !app_assoc.
  repeat split.
  intros q Hin. apply elem_of_app in Hin as [Hin | Hin].
  - rewrite Forall_forall in Hpre. specialize (Hpre _ Hin). discriminate.
  - apply elem_of_cons in Hin as [Hin | Hin];
      [destruct Hev; congruence |].
    apply elem_of_cons in Hin as [Hin | Hin]; [discriminate |].
    now apply elem_of_nil in Hin.
Qed.

End Properties.

(** ** The claims on concrete requests *)

Example clean_question_strips :
  clean_question (Some (text_of_string "  What is the total revenue? "))
  = inr (text_of_string "What is the total revenue?").
Proof. reflexivity. Qed.

Example clean_question_blank :
  clean_question (Some (text_of_string "   ")) = inl "required".
Proof. reflexivity. Qed.

(** The limit counts code points: 500 euro signs pass, 501 do not. *)
Example clean_question_500 :
  clean_question (Some (List.repeat Demo.euro 500))
  = inr (List.repeat Demo.euro 500).
Proof. vm_compute. reflexivity. Qed.

Example clean_question_501 :
  clean_question (Some (List.repeat Demo.euro 501)) = inl "max_length".
Proof. vm_compute. reflexivity. Qed.

(** A value that is both too long and holds a NUL has both errors; an
    ideographic space around a question is stripped. *)
Example question_errors_both :
  question_errors (Some (0%N :: List.repeat Demo.euro 500))
  = ["max_length"; "null_characters_not_allowed"].
Proof. vm_compute. reflexivity. Qed.

Example clean_question_unicode_space :
  clean_question (Some [12288%N; Demo.euro; 8195%N]) = inr [Demo.euro].
Proof. reflexivity. Qed.

(** With a parser that fails, the upload request raises after the document
    was saved; no index is persisted. *)
Example upload_broken_pdf :
  fst (home Demo.broken_pdf Demo.upload_request Demo.empty_state)
  = Raise PdfError
  /\ vectorstores
       (snd (home Demo.broken_pdf Demo.upload_request Demo.empty_state)) = ∅
  /\ documents
       (snd (home Demo.broken_pdf Demo.upload_request Demo.empty_state)) !! 1
     = Some Demo.report_doc.
Proof. repeat split; vm_compute; reflexivity. Qed.

(** An invalid upload form falls through to the upload page, which gets
    the bound form and so shows its error. *)
Example upload_without_file :
  fst (home Demo.services (Demo.post [("upload_file", "")] []) Demo.empty_state)
  = Return (upload_html (DocumentUploadForm_bound None) None)
  /\ rendered_errors (upload_html (DocumentUploadForm_bound None) None)
     = ["required"].
Proof. split; vm_compute; reflexivity. Qed.

(** Markers of lower precedence are ignored: a request that carries all
    four is an upload. *)
Example all_markers_is_upload :
  classify (Demo.post [("clear_chat", ""); ("reset", ""); ("ask_question", "");
                       ("upload_file", "")] []) = Upload.
Proof. vm_compute. reflexivity. Qed.

(** C1: the session names document 7, which is no longer in the table;
    the ask submission ends in [Document.DoesNotExist] escaping the
    handler, not in the "File missing." page. *)
Theorem ask_stale_session_raises :
  home Demo.services (Demo.ask_request "What is the total revenue?")
       Demo.stale_state
  = (Raise DoesNotExist, Demo.stale_state).
Proof.
  apply home_ask_deleted_document with (n := 7);
    try (vm_compute; reflexivity).
  discriminate.
Qed.

(** C3: an ask submission with an empty question, with a document loaded.
    Validation fails with the error "required", the model is not
    called and the session is left alone, but the page that is rendered
    carries a fresh question form and shows no error. *)
Theorem ask_empty_question_error_not_shown :
  clean_question (POST (Demo.ask_request "") !! "question")
  = inl "required"
  /\ fst (home Demo.services (Demo.ask_request "") Demo.loaded_state)
     = Return (upload_success_html (Some (VStr "report.pdf")) QuestionForm_new
                 (VList []) false)
  /\ rendered_errors
       (upload_success_html (Some (VStr "report.pdf")) QuestionForm_new
          (VList []) false) = []
  /\ session (snd (home Demo.services (Demo.ask_request "") Demo.loaded_state))
     = session Demo.loaded_state
  /\ trace (snd (home Demo.services (Demo.ask_request "") Demo.loaded_state))
     = trace Demo.loaded_state ++ [EvChromaOpen 1; EvQuestionIsValid].
Proof. repeat split; vm_compute; reflexivity. Qed.

Lemma ask_fresh_session_unchanged_witness :
  home Demo.services (Demo.ask_request "What is the total revenue?")
       Demo.empty_state
  = (Return (upload_html DocumentUploadForm_new
               (Some "Please upload a document first.")), Demo.empty_state).
Proof.
  apply (ask_fresh_session_unchanged Demo.services); vm_compute; reflexivity.
Defined.

Lemma reset_clears_all_three_witness :
  exists st',
    home Demo.services Demo.reset_request Demo.asked_state
    = (Return (upload_html DocumentUploadForm_new None), st')
    /\ session st' !! "uploaded_filename" = None
    /\ session st' !! "document_id" = None
    /\ session st' !! "conversation" = None.
Proof.
  destruct (reset_clears_all_three Demo.services Demo.reset_request
              Demo.asked_state) as (st' & H & H1 & H2 & H3 & _);
    [vm_compute; reflexivity |].
  exists st'. repeat split; assumption.
Defined.

Lemma clear_keeps_document_witness :
  exists st' st'',
    home Demo.services Demo.clear_request Demo.asked_state
    = (Return (upload_success_html
                 (session Demo.asked_state !! "uploaded_filename")
                 QuestionForm_new (VList []) true), st')
    /\ session st' !! "conversation" = Some (VList [])
    /\ home Demo.services (Demo.ask_request "Who wrote it?") st'
       = (Return (upload_success_html
                    (session Demo.asked_state !! "uploaded_filename")
                    QuestionForm_new
                    (VList [mkEntry "Who wrote it?" "Answer to: Who wrote it?"])
                    false), st'').
Proof.
  destruct (clear_keeps_document Demo.services Demo.clear_request
              Demo.asked_state)
    as (st' & H & _ & Hc & _ & _ & _ & _ & _ & Hask);
    [vm_compute; reflexivity |].
  destruct (Hask (Demo.ask_request "Who wrote it?") 1 Demo.report_doc
              Demo.report_index "Who wrote it?" "Answer to: Who wrote it?")
    as (st'' & Ha & _); try (vm_compute; reflexivity); [discriminate |].
  exists st', st''. repeat split; assumption.
Defined.

Lemma ask_appends_entry_witness :
  exists st',
    home Demo.services (Demo.ask_request "Who wrote it?") Demo.asked_state
    = (Return (upload_success_html
                 (session Demo.asked_state !! "uploaded_filename")
                 QuestionForm_new
                 (VList (conversation_of (session Demo.asked_state)
                           ++ [mkEntry "Who wrote it?"
                                       "Answer to: Who wrote it?"]))
                 false), st')
    /\ conversation_of (session st')
       = conversation_of (session Demo.asked_state)
           ++ [mkEntry "Who wrote it?" "Answer to: Who wrote it?"].
Proof.
  destruct (ask_appends_entry Demo.services
              (Demo.ask_request "Who wrote it?") Demo.asked_state
              1 Demo.report_doc Demo.report_index
              "Who wrote it?" "Answer to: Who wrote it?")
    as (st' & H & Hc & _); try (vm_compute; reflexivity); [discriminate |].
  exists st'. split; assumption.
Defined.

Lemma upload_loads_document_witness :
  exists st',
    home Demo.services Demo.upload_request Demo.empty_state
    = (Return (upload_success_html (Some (VStr "report.pdf")) QuestionForm_new
                 (VList []) true), st')
    /\ session st' !! "uploaded_filename" = Some (VStr "report.pdf")
    /\ session st' !! "document_id" = Some (VInt 1)
    /\ session st' !! "conversation" = Some (VList [])
    /\ vectorstores st' !! 1 = Some Demo.report_index.
Proof.
  destruct (upload_loads_document Demo.services Demo.upload_request
              Demo.empty_state Demo.report Demo.report_index)
    as (st' & pre & ev & H & _ & H1 & H2 & H3 & H4 & _);
    try (vm_compute; reflexivity).
  exists st'. repeat split; assumption.
Defined.

Lemma ask_index_before_validation_witness :
  exists o st' pre ev,
    home Demo.services (Demo.ask_request "") Demo.loaded_state = (o, st')
    /\ trace st'
       = trace Demo.loaded_state ++ pre ++ [ev] ++ [EvQuestionIsValid] ++ []
    /\ (ev = EvChromaOpen 1 \/ ev = EvPersist 1).
Proof.
  pose proof (ask_index_before_validation Demo.services
                (Demo.ask_request "") Demo.loaded_state 1 Demo.report_doc)
    as H.
  destruct H as (o & st' & pre & ev & H & Ht & Hev & _);
    try (vm_compute; reflexivity); [discriminate |].
  exists o, st', pre, ev. repeat split; assumption.
Defined.

(** * Further properties *)

(** ** The question field *)

Lemma lstrip_trimmed s : starts_with_space (lstrip s) = false.
Proof.
  induction s as [|c s IH]; simpl; [reflexivity |].
  destruct (is_space c) eqn:Hc; [exact IH | simpl; exact Hc].
Qed.

Lemma rstrip_trimmed s : ends_with_space (rstrip s) = false.
Proof.
  induction s as [|c s IH]; simpl; [reflexivity |].
  destruct (rstrip s) as [|c' r] eqn:Hr.
  - destruct (is_space c) eqn:Hc; simpl; [reflexivity | exact Hc].
  - exact IH.
Qed.

Lemma rstrip_keeps_start s :
  starts_with_space s = false -> starts_with_space (rstrip s) = false.
Proof.
  destruct s as [|c s]; simpl; [reflexivity |]. intros Hc.
  destruct (rstrip s); [rewrite Hc |]; simpl; assumption.
Qed.

Lemma lstrip_id s : starts_with_space s = false -> lstrip s = s.
Proof. destruct s as [|c s]; simpl; [reflexivity |]. now intros ->. Qed.

Lemma rstrip_id s : ends_with_space s = false -> rstrip s = s.
Proof.
  induction s as [|c s IH]; [reflexivity |].
  destruct s as [|c' s'].
  - simpl. now intros ->.
  - intros H. change (ends_with_space (c' :: s') = false) in H.
    change (rstrip (c :: c' :: s'))
      with (match rstrip (c' :: s') with
            | [] => if is_space c then [] else [c]
            | r => c :: r
            end).
    rewrite (IH H). reflexivity.
Qed.

Lemma lstrip_length s : (length (lstrip s) <= length s)%nat.
Proof.
  induction s as [|c s IH]; simpl; [lia |].
  destruct (is_space c); simpl; lia.
Qed.

Lemma rstrip_length s : (length (rstrip s) <= length s)%nat.
Proof.
  induction s as [|c s IH]; simpl; [lia |].
  destruct (rstrip s); [destruct (is_space c) |]; simpl in *; lia.
Qed.

Lemma strip_fixed s :
  starts_with_space s = false -> ends_with_space s = false -> strip s = s.
Proof.
  intros Hs He. unfold strip. rewrite (lstrip_id _ Hs). now apply rstrip_id.
Qed.

Lemma strip_strip s : strip (strip s) = strip s.
Proof.
  apply strip_fixed.
  - unfold strip. apply rstrip_keeps_start, lstrip_trimmed.
  - unfold strip. apply rstrip_trimmed.
Qed.

(** The form is valid exactly when the field has no error. *)
Lemma clean_question_valid raw :
  (exists q, clean_question raw = inr q) <-> question_errors raw = [].
Proof.
  unfold clean_question. destruct raw as [s|].
  - destruct (question_errors (Some s)) as [|e es].
    + split; eauto.
    + split; [intros [q H] |]; discriminate.
  - simpl. split; [intros [q H] |]; discriminate.
Qed.

(** A question the form accepts is the submitted text without the
    whitespace around it; it has between 1 and 500 code points, no NUL, no
    whitespace at either end, is no longer than what was submitted, and is
    accepted unchanged when submitted again. *)
Theorem clean_question_accepted raw q :
  clean_question raw = inr q ->
  exists s,
    raw = Some s /\ q = strip s
    /\ (1 <= length q <= 500)%nat
    /\ (length q <= length s)%nat
    /\ has_nul q = false
    /\ starts_with_space q = false /\ ends_with_space q = false
    /\ clean_question (Some q) = inr q.
Proof.
  unfold clean_question, question_errors, question_validators.
  destruct raw as [s|]; [| discriminate].
  destruct (strip s) as [|c v] eqn:Hv; [discriminate |].
  change (is_empty (c :: v)) with false. cbv iota.
  destruct (Nat.ltb_spec max_length (length (c :: v))) as [|Hlen];
    [discriminate |].
  destruct (has_nul (c :: v)) eqn:Hnul; [discriminate |].
  simpl app. intros [= <-]. exists s. unfold max_length in Hlen.
  split; [reflexivity |]. split; [now rewrite Hv |].
  split; [simpl in *; lia |].
  split.
  { rewrite <- Hv. unfold strip.
    etransitivity; [apply rstrip_length | apply lstrip_length]. }
  split; [exact Hnul |].
  split; [rewrite <- Hv; unfold strip; apply rstrip_keeps_start, lstrip_trimmed |].
  split; [rewrite <- Hv; unfold strip; apply rstrip_trimmed |].
  rewrite <- Hv, strip_strip, Hv.
  change (is_empty (c :: v)) with false. cbv iota.
  destruct (Nat.ltb_spec max_length (length (c :: v))) as [|_];
    [unfold max_length in *; lia |].
  now rewrite Hnul.
Qed.

Lemma clean_question_accepted_witness :
  exists s : text,
    Some [12288%N; Demo.euro; 8195%N] = Some s
    /\ (1 <= length [Demo.euro] <= 500)%nat
    /\ clean_question (Some [Demo.euro]) = inr [Demo.euro].
Proof.
  destruct (clean_question_accepted (Some [12288%N; Demo.euro; 8195%N])
              [Demo.euro] eq_refl)
    as (s & Hs & _ & Hlen & _ & _ & _ & _ & Hagain).
  exists s. repeat split; assumption || apply Hlen.
Defined.

Section More.

Context {Index : Type}.
Variable sv : Services Index.
Implicit Types (st : State Index) (request : Request).

Local Arguments get_vectorstore : simpl never.

Ltac run :=
  unfold home, branch;
  unfold home_ask, home_reset, home_clear, home_upload,
    session_get, session_get_default, session_set, session_pop,
    Document_objects_get, bind, gets, modify, ret, raise, call; simpl.

(** ** Loading and indexing *)

Lemma count_events_nil p : count_events p [] = 0%nat.
Proof. reflexivity. Qed.

Lemma count_events_cons p ev evs :
  count_events p (ev :: evs)
  = ((if p ev then 1 else 0) + count_events p evs)%nat.
Proof. unfold count_events. simpl. now destruct (p ev). Qed.

Lemma count_events_app p evs1 evs2 :
  count_events p (evs1 ++ evs2)
  = (count_events p evs1 + count_events p evs2)%nat.
Proof. unfold count_events. now rewrite List.filter_app, length_app. Qed.

Ltac count :=
  rewrite ?count_events_app, ?count_events_cons, ?count_events_nil;
  simpl; lia.

(** [get_vectorstore] downloads a document only when it is remote and has
    no persisted store, and then once.  A successful download leaves its
    temporary file behind whether the build then succeeds or fails in
    parsing or embedding; no temporary file is ever removed. *)
Theorem download_leaves_temporary_file doc st :
  tmp_files (snd (get_vectorstore sv doc st))
  = tmp_files st
      ++ match vectorstores st !! doc_id doc with
         | Some _ => []
         | None =>
             if String.prefix "http" (file_url doc)
             then match http_get sv (file_url doc) with
                  | Some body => [body]
                  | None => []
                  end
             else []
         end
  /\ count_events is_http_get
       (drop (length (trace st)) (trace (snd (get_vectorstore sv doc st))))
     = match vectorstores st !! doc_id doc with
       | Some _ => 0%nat
       | None => if String.prefix "http" (file_url doc) then 1%nat else 0%nat
       end.
Proof.
  destruct (vectorstores st !! doc_id doc) as [idx|] eqn:Hst.
  - rewrite (get_vectorstore_cached sv _ _ _ Hst). simpl.
    rewrite app_nil_r. split; [reflexivity |].
    now rewrite drop_app_length.
  - rewrite (get_vectorstore_uncached sv _ _ Hst).
    unfold resolve_loader, download_events.
    destruct (String.prefix "http" (file_url doc)).
    + destruct (http_get sv (file_url doc)) as [body|]; simpl.
      * destruct (pdf_load sv (PyPDFLoader_tmp body)) as [pages|];
          [destruct (from_documents sv _) |]; simpl;
          rewrite drop_app_length; now split.
      * rewrite drop_app_length, app_nil_r. now split.
    + destruct (isfile sv (file_path doc)); simpl.
      * destruct (pdf_load sv (PyPDFLoader_path (file_path doc)))
          as [pages|]; [destruct (from_documents sv _) |]; simpl;
          rewrite drop_app_length, app_nil_r; now split.
      * rewrite drop_app_length, app_nil_r. now split.
Qed.

(** One call of [get_vectorstore], every outcome: what it leaves of the
    state and which calls it makes. *)
Lemma get_vectorstore_step doc st :
  exists o tmp evs stores',
    get_vectorstore sv doc st
    = (o, mkState (session st) (documents st) (next_id st) true stores'
            (tmp_files st ++ tmp) (trace st ++ evs))
    /\ (forall j idx, vectorstores st !! j = Some idx -> stores' !! j = Some idx)
    /\ (forall j, j <> doc_id doc -> stores' !! j = vectorstores st !! j)
    /\ count_events is_llm evs = 0%nat
    /\ count_events is_save evs = 0%nat
    /\ (count_events is_from_documents evs <= 1)%nat
    /\ (count_events is_http_get evs <= 1)%nat
    /\ (length tmp <= 1)%nat
    /\ match o with
       | Return idx =>
           index_for sv doc (vectorstores st) = Some idx
           /\ stores' !! doc_id doc = Some idx
       | Raise e =>
           index_for sv doc (vectorstores st) = None
           /\ (e = HTTPError \/ e = NotAFile \/ e = PdfError
               \/ e = EmbeddingError)
           /\ ((e <> EmbeddingError /\ stores' = vectorstores st)
               \/ (e = EmbeddingError
                   /\ stores'
                      = <[doc_id doc := empty_store sv]> (vectorstores st)))
       end.
Proof.
  destruct (vectorstores st !! doc_id doc) as [idx|] eqn:Hst.
  { exists (Return idx), [], [EvChromaOpen (doc_id doc)], (vectorstores st).
    rewrite (get_vectorstore_cached sv _ _ _ Hst).
    unfold index_for. rewrite Hst. unfold log, makedirs; simpl.
    rewrite app_nil_r. repeat split; auto. }
  assert (Hmono : forall (idx : Index) j idx',
             vectorstores st !! j = Some idx' ->
             <[doc_id doc := idx]> (vectorstores st) !! j = Some idx').
  { intros idx j idx' Hj. rewrite lookup_insert_ne; [exact Hj |].
    intros <-. congruence. }
  assert (Hother : forall (idx : Index) j, j <> doc_id doc ->
             <[doc_id doc := idx]> (vectorstores st) !! j
             = vectorstores st !! j).
  { intros idx j Hj. now rewrite lookup_insert_ne by congruence. }
  assert (Hdl : forall p, (count_events p (download_events doc) <= 1)%nat).
  { intros p. unfold download_events, count_events.
    destruct (String.prefix "http" (file_url doc)); simpl;
      [destruct (p _) |]; simpl; lia. }
  assert (Hdl0 : forall p, (forall url, p (EvHttpGet url) = false) ->
             count_events p (download_events doc) = 0%nat).
  { intros p Hp. unfold download_events, count_events.
    destruct (String.prefix "http" (file_url doc)); simpl;
      [rewrite Hp |]; reflexivity. }
  assert (Htmp : forall ld, (length (tmp_of_loader ld) <= 1)%nat)
    by (intros [|]; simpl; lia).
  pose proof (Hdl0 is_llm (fun _ => eq_refl)) as Hl.
  pose proof (Hdl0 is_save (fun _ => eq_refl)) as Hs.
  pose proof (Hdl0 is_from_documents (fun _ => eq_refl)) as Hf.
  pose proof (Hdl is_http_get) as Hh.
  rewrite (get_vectorstore_uncached sv _ _ Hst).
  unfold index_for, build_index. rewrite Hst.
  destruct (resolve_loader sv doc) as [ld|]; simpl.
  - destruct (pdf_load sv ld) as [pages|]; simpl.
    + destruct (from_documents sv (split_documents sv 1000 100 pages))
        as [idx|]; simpl.
      * eexists _, (tmp_of_loader ld), _, _. split; [reflexivity |].
        repeat split; auto; try apply lookup_insert_eq; count.
      * eexists _, (tmp_of_loader ld), _, _. split; [reflexivity |].
        do 7 (split; [auto; count |]).
        split; [reflexivity |]. split; [auto |]. right. now split.
    + eexists _, (tmp_of_loader ld), _, _. split; [reflexivity |].
      do 7 (split; [auto; count |]).
      split; [reflexivity |]. split; [auto |]. left. now split.
  - eexists _, [], _, _. rewrite app_nil_r. split; [reflexivity |].
    do 7 (split; [auto; count |]).
    split; [reflexivity |].
    destruct (String.prefix "http" (file_url doc));
      (split; [auto |]; left; now split).
Qed.

(** [get_vectorstore], whatever its outcome, leaves the session, the
    document table and the next primary key alone, does not touch the index
    of any other document, and never replaces an index that is already
    persisted for this one. *)
Theorem get_vectorstore_frame doc st :
  session (snd (get_vectorstore sv doc st)) = session st
  /\ documents (snd (get_vectorstore sv doc st)) = documents st
  /\ next_id (snd (get_vectorstore sv doc st)) = next_id st
  /\ vectorstore_dir (snd (get_vectorstore sv doc st)) = true
  /\ (forall j, j <> doc_id doc ->
        vectorstores (snd (get_vectorstore sv doc st)) !! j
        = vectorstores st !! j)
  /\ (forall j idx, vectorstores st !! j = Some idx ->
        vectorstores (snd (get_vectorstore sv doc st)) !! j = Some idx).
Proof.
  destruct (get_vectorstore_step doc st)
    as (o & tmp & evs & stores' & Heq & Hmono & Hother & _).
  rewrite Heq. simpl. repeat split; assumption.
Qed.

(** After a call of [get_vectorstore] that returned an index, a further
    call for the same document returns that index and does nothing but
    open the persisted store: no download, no parsing, no embedding. *)
Theorem get_vectorstore_again doc st idx st1 :
  get_vectorstore sv doc st = (Return idx, st1) ->
  get_vectorstore sv doc st1
  = (Return idx,
     mkState (session st1) (documents st1) (next_id st1) true
       (vectorstores st1) (tmp_files st1)
       (trace st1 ++ [EvChromaOpen (doc_id doc)])).
Proof.
  intros Hfirst.
  destruct (get_vectorstore_step doc st)
    as (o & tmp & evs & stores' & Heq & _ & _ & _ & _ & _ & _ & _ & Ho).
  rewrite Heq in Hfirst. injection Hfirst as -> <-.
  destruct Ho as [_ Hst].
  rewrite get_vectorstore_cached with (idx := idx) by exact Hst.
  reflexivity.
Qed.

(** Without a persisted index, the exception of [get_vectorstore] names the
    first stage that fails, and the stages after it are not attempted: a
    failed download or a local path that is no file is followed by no
    parsing, a failed parse by no embedding.  A failure before the
    embedding leaves no store; a failed embedding leaves the empty store
    that [Chroma.from_documents] created under the document's id; the
    stores of other documents are never touched. *)
Theorem get_vectorstore_error_stage doc st :
  vectorstores st !! doc_id doc = None ->
  vectorstores (snd (get_vectorstore sv doc st)) !! doc_id doc
  = store_after_build sv doc
  /\ (forall j, j <> doc_id doc ->
        vectorstores (snd (get_vectorstore sv doc st)) !! j
        = vectorstores st !! j)
  /\ match resolve_loader sv doc with
     | None =>
         fst (get_vectorstore sv doc st)
         = Raise (if String.prefix "http" (file_url doc)
                  then HTTPError else NotAFile)
         /\ trace (snd (get_vectorstore sv doc st))
            = trace st ++ download_events doc
     | Some ld =>
         match pdf_load sv ld with
         | None =>
             fst (get_vectorstore sv doc st) = Raise PdfError
             /\ trace (snd (get_vectorstore sv doc st))
                = trace st ++ download_events doc ++ [EvPdfLoad ld]
         | Some pages =>
             match from_documents sv (split_documents sv 1000 100 pages) with
             | None =>
                 fst (get_vectorstore sv doc st) = Raise EmbeddingError
                 /\ trace (snd (get_vectorstore sv doc st))
                    = trace st ++ download_events doc
                        ++ [EvPdfLoad ld;
                            EvEmbed (split_documents sv 1000 100 pages)]
             | Some idx =>
                 fst (get_vectorstore sv doc st) = Return idx
                 /\ trace (snd (get_vectorstore sv doc st))
                    = trace st ++ download_events doc
                        ++ [EvPdfLoad ld;
                            EvEmbed (split_documents sv 1000 100 pages);
                            EvPersist (doc_id doc)]
             end
         end
     end.
Proof.
  intros Hst. rewrite (get_vectorstore_uncached sv _ _ Hst).
  unfold store_after_build.
  destruct (resolve_loader sv doc) as [ld|]; simpl.
  - destruct (pdf_load sv ld) as [pages|]; simpl.
    + destruct (from_documents sv (split_documents sv 1000 100 pages));
        simpl; (split; [apply lookup_insert_eq |]);
        (split; [intros j Hj; now rewrite lookup_insert_ne by congruence |]);
        now split.
    + now repeat split.
  - now repeat split.
Qed.

(** ** The branches of [home], as equations *)

Lemma home_default_state request st :
  classify request = Default ->
  home sv request st = (Return (upload_html DocumentUploadForm_new None), st).
Proof. intros Hc. now rewrite home_branch, Hc. Qed.

Lemma home_reset_state request st :
  classify request = Reset ->
  home sv request st
  = (Return (upload_html DocumentUploadForm_new None),
     set_session (fun s => delete "document_id"
                             (delete "uploaded_filename"
                                (delete "conversation" s))) st).
Proof. intros Hc. now rewrite home_branch, Hc. Qed.

Lemma home_upload_invalid request st err :
  classify request = Upload ->
  clean_file (FILES request !! "file") = inl err ->
  home sv request st
  = (Return (upload_html (DocumentUploadForm_bound (FILES request !! "file"))
               None), log EvUploadIsValid st).
Proof. intros Hc Hf. rewrite home_branch, Hc. run. now rewrite Hf. Qed.

Lemma home_upload_valid request st file :
  classify request = Upload ->
  clean_file (FILES request !! "file") = inr file ->
  home sv request st
  = match get_vectorstore sv (new_document sv file st)
            (uploaded_state sv file st) with
    | (Return _, st1) =>
        (Return (upload_success_html (Some (VStr (name file)))
                   QuestionForm_new (VList []) true), st1)
    | (Raise e, st1) => (Raise e, st1)
    end.
Proof.
  intros Hc Hf. rewrite home_branch, Hc. run. rewrite Hf.
  unfold Document_save, uploaded_state, new_document, set_session, log.
  simpl. rewrite <- !app_assoc. simpl.
  now destruct (get_vectorstore sv _ _) as [[idx|e] st1].
Qed.

Lemma home_ask_no_document request st :
  classify request = Ask ->
  truthy (session st !! "uploaded_filename") = true ->
  truthy (session st !! "document_id") = false ->
  home sv request st
  = (Return (upload_html DocumentUploadForm_new (Some "File missing.")), st).
Proof.
  intros Hc Hf Hid. rewrite home_branch, Hc. run.
  rewrite Hf. simpl. now rewrite Hid.
Qed.

Lemma home_ask_bad_id request st v e :
  classify request = Ask ->
  truthy (session st !! "uploaded_filename") = true ->
  session st !! "document_id" = Some v ->
  truthy (Some v) = true ->
  id_of_value sv v = inl e ->
  home sv request st = (Raise e, st).
Proof.
  intros Hc Hf Hid Ht Hv. rewrite home_branch, Hc. run.
  rewrite Hf. simpl. rewrite Hid, Ht. simpl. now rewrite Hv.
Qed.

Lemma home_ask_no_row request st v n :
  classify request = Ask ->
  truthy (session st !! "uploaded_filename") = true ->
  session st !! "document_id" = Some v ->
  truthy (Some v) = true ->
  id_of_value sv v = inr n ->
  documents st !! n = None ->
  home sv request st = (Raise DoesNotExist, st).
Proof.
  intros Hc Hf Hid Ht Hv Hdoc. rewrite home_branch, Hc. run.
  rewrite Hf. simpl. rewrite Hid, Ht. simpl. rewrite Hv. simpl.
  now rewrite Hdoc.
Qed.

Lemma home_ask_row request st v n doc :
  classify request = Ask ->
  truthy (session st !! "uploaded_filename") = true ->
  session st !! "document_id" = Some v ->
  truthy (Some v) = true ->
  id_of_value sv v = inr n ->
  documents st !! n = Some doc ->
  home sv request st =
  match get_vectorstore sv doc st with
  | (Raise e, st1) => (Raise e, st1)
  | (Return idx, st1) =>
      let st2 := log EvQuestionIsValid st1 in
      match clean_question (POST request !! "question") with
      | inl _ =>
          (Return (upload_success_html (session st !! "uploaded_filename")
                     QuestionForm_new
                     (default (VList []) (session st2 !! "conversation"))
                     false), st2)
      | inr q =>
          let st3 := log (EvLLM q) st2 in
          match qa_run sv idx q with
          | None => (Raise CompletionError, st3)
          | Some a =>
              match default (VList []) (session st3 !! "conversation") with
              | VList l =>
                  let c := VList (l ++ [mkEntry q a]) in
                  (Return (upload_success_html
                             (session st !! "uploaded_filename")
                             QuestionForm_new c false),
                   set_session (insert "conversation" c) st3)
              | _ => (Raise AttributeError, st3)
              end
          end
      end
  end.
Proof.
  intros Hc Hf Hid Ht Hv Hdoc. rewrite home_branch, Hc. run.
  rewrite Hf. simpl. rewrite Hid, Ht. simpl. rewrite Hv. simpl.
  rewrite Hdoc. unfold ret at 1. simpl.
  destruct (get_vectorstore sv doc st) as [[idx|e] st1]; [| reflexivity].
  destruct (clean_question (POST request !! "question")) as [err|q];
    [reflexivity |].
  simpl. destruct (qa_run sv idx q) as [a|]; [| reflexivity].
  unfold ret. simpl. unfold append.
  destruct (default (VList []) (session st1 !! "conversation"));
    try reflexivity.
  unfold ret. simpl. now rewrite lookup_insert_eq.
Qed.

(** Every way a request can go. *)
Lemma home_cases request st :
  (classify request = Default /\
   home sv request st = (Return (upload_html DocumentUploadForm_new None), st))
  \/ (classify request = Reset /\
      home sv request st
      = (Return (upload_html DocumentUploadForm_new None),
         set_session (fun s => delete "document_id"
                                 (delete "uploaded_filename"
                                    (delete "conversation" s))) st))
  \/ (classify request = Clear /\
      home sv request st
      = (Return (upload_success_html (session st !! "uploaded_filename")
                   QuestionForm_new (VList []) true),
         set_session (insert "conversation" (VList [])) st))
  \/ (classify request = Upload /\
      exists err,
        clean_file (FILES request !! "file") = inl err /\
        home sv request st
        = (Return (upload_html
                     (DocumentUploadForm_bound (FILES request !! "file")) None),
           log EvUploadIsValid st))
  \/ (classify request = Upload /\
      exists file,
        clean_file (FILES request !! "file") = inr file /\
        home sv request st
        = match get_vectorstore sv (new_document sv file st)
                  (uploaded_state sv file st) with
          | (Return _, st1) =>
              (Return (upload_success_html (Some (VStr (name file)))
                         QuestionForm_new (VList []) true), st1)
          | (Raise e, st1) => (Raise e, st1)
          end)
  \/ (classify request = Ask /\
      truthy (session st !! "uploaded_filename") = false /\
      home sv request st
      = (Return (upload_html DocumentUploadForm_new
                   (Some "Please upload a document first.")), st))
  \/ (classify request = Ask /\
      truthy (session st !! "uploaded_filename") = true /\
      truthy (session st !! "document_id") = false /\
      home sv request st
      = (Return (upload_html DocumentUploadForm_new (Some "File missing.")),
         st))
  \/ (classify request = Ask /\
      truthy (session st !! "uploaded_filename") = true /\
      exists v e,
        session st !! "document_id" = Some v /\
        id_of_value sv v = inl e /\ (e = ValueError \/ e = TypeError) /\
        home sv request st = (Raise e, st))
  \/ (classify request = Ask /\
      truthy (session st !! "uploaded_filename") = true /\
      exists v n,
        session st !! "document_id" = Some v /\ id_of_value sv v = inr n /\
        documents st !! n = None /\
        home sv request st = (Raise DoesNotExist, st))
  \/ (classify request = Ask /\
      truthy (session st !! "uploaded_filename") = true /\
      exists v n doc,
        session st !! "document_id" = Some v /\ id_of_value sv v = inr n /\
        documents st !! n = Some doc /\
        home sv request st
        = match get_vectorstore sv doc st with
          | (Raise e, st1) => (Raise e, st1)
          | (Return idx, st1) =>
              let st2 := log EvQuestionIsValid st1 in
              match clean_question (POST request !! "question") with
              | inl _ =>
                  (Return (upload_success_html
                             (session st !! "uploaded_filename")
                             QuestionForm_new
                             (default (VList [])
                                (session st2 !! "conversation"))
                             false), st2)
              | inr q =>
                  let st3 := log (EvLLM q) st2 in
                  match qa_run sv idx q with
                  | None => (Raise CompletionError, st3)
                  | Some a =>
                      match default (VList [])
                              (session st3 !! "conversation") with
                      | VList l =>
                          let c := VList (l ++ [mkEntry q a]) in
                          (Return (upload_success_html
                                     (session st !! "uploaded_filename")
                                     QuestionForm_new c false),
                           set_session (insert "conversation" c) st3)
                      | _ => (Raise AttributeError, st3)
                      end
                  end
              end
          end).
Proof.
  destruct (classify request) eqn:Hc.
  - do 3 right.
    destruct (clean_file (FILES request !! "file")) as [err|file] eqn:Hf.
    + left. split; [reflexivity |]. exists err. split; [reflexivity |].
      now apply home_upload_invalid with (err := err).
    + right. left. split; [reflexivity |]. exists file.
      split; [reflexivity |]. now apply home_upload_valid.
  - do 5 right.
    destruct (truthy (session st !! "uploaded_filename")) eqn:Hfn.
    2:{ left. split; [reflexivity |]. split; [reflexivity |].
        now apply home_ask_no_filename. }
    right.
    destruct (truthy (session st !! "document_id")) eqn:Hid.
    2:{ left. do 3 (split; [reflexivity |]).
        now apply home_ask_no_document. }
    right.
    destruct (session st !! "document_id") as [v|] eqn:Hv; [| discriminate].
    destruct (id_of_value sv v) as [e|n] eqn:He.
    + left. do 2 (split; [reflexivity |]). exists v, e.
      split; [reflexivity |]. split; [exact He |].
      split; [| now apply home_ask_bad_id with (v := v)].
      unfold id_of_value in He.
      destruct v as [s|n|l]; [| discriminate | injection He as <-; now right].
      destruct (int_of_str sv s); [discriminate |].
      injection He as <-. now left.
    + right.
      destruct (documents st !! n) as [doc|] eqn:Hdoc.
      * right. do 2 (split; [reflexivity |]). exists v, n, doc.
        do 3 (split; [assumption || reflexivity |]).
        now apply home_ask_row with (v := v) (n := n).
      * left. do 2 (split; [reflexivity |]). exists v, n.
        do 3 (split; [assumption || reflexivity |]).
        now apply home_ask_no_row with (v := v) (n := n).
  - right. left. split; [reflexivity |]. now apply home_reset_state.
  - do 2 right. left. split; [reflexivity |]. now apply home_clear_state.
  - left. split; [reflexivity |]. now apply home_default_state.
Qed.

(** One request, every outcome: the shape of the state it leaves and the
    calls it makes. *)
Lemma home_step request st :
  exists o sess' docs' nid' vsd' stores' tmp evs,
    home sv request st
    = (o, mkState sess' docs' nid' vsd' stores' (tmp_files st ++ tmp)
            (trace st ++ evs))
    /\ (forall j idx, vectorstores st !! j = Some idx -> stores' !! j = Some idx)
    /\ ((docs' = documents st /\ nid' = next_id st)
        \/ (classify request = Upload /\
            exists file,
              clean_file (FILES request !! "file") = inr file /\
              docs' = <[next_id st := new_document sv file st]> (documents st)
              /\ nid' = next_id st + 1))
    /\ (count_events is_llm evs <= 1)%nat
    /\ (count_events is_from_documents evs <= 1)%nat
    /\ (count_events is_save evs <= 1)%nat
    /\ (count_events is_http_get evs <= 1)%nat
    /\ match classify request with
       | Upload => count_events is_llm evs = 0%nat
       | Ask => count_events is_save evs = 0%nat
       | _ => evs = [] /\ tmp = [] /\ stores' = vectorstores st
       end.
Proof.
  destruct (home_cases request st)
    as [(Hc & Heq) | [(Hc & Heq) | [(Hc & Heq) | [(Hc & err & Hf & Heq)
       | [(Hc & file & Hf & Heq) | [(Hc & Hfn & Heq) | [(Hc & Hfn & Hid & Heq)
       | [(Hc & Hfn & v & e & Hv & Hid & He & Heq)
       | [(Hc & Hfn & v & n & Hv & Hid & Hd & Heq)
       | (Hc & Hfn & v & n & doc & Hv & Hid & Hd & Heq)]]]]]]]]];
    rewrite Heq, ?Hc; clear Heq.
  - exists (Return (upload_html DocumentUploadForm_new None)),
      (session st), (documents st), (next_id st), (vectorstore_dir st),
      (vectorstores st), [], [].
    rewrite !app_nil_r. destruct st; simpl.
    repeat split; auto; try (left; now split); count.
  - eexists _, _, (documents st), (next_id st), (vectorstore_dir st),
      (vectorstores st), [], [].
    rewrite !app_nil_r. split; [reflexivity |].
    repeat split; auto; try (left; now split); count.
  - eexists _, _, (documents st), (next_id st), (vectorstore_dir st),
      (vectorstores st), [], [].
    rewrite !app_nil_r. split; [reflexivity |].
    repeat split; auto; try (left; now split); count.
  - eexists _, (session st), (documents st), (next_id st),
      (vectorstore_dir st), (vectorstores st), [], [EvUploadIsValid].
    rewrite !app_nil_r. split; [reflexivity |].
    repeat split; auto; try (left; now split); count.
  - destruct (get_vectorstore_step (new_document sv file st)
                (uploaded_state sv file st))
      as (o & tmp & evs & stores' & Hg & Hmono & _ & Hl & Hs & He & Hh & _).
    rewrite Hg. simpl in *.
    exists (match o with
            | Return _ =>
                Return (upload_success_html (Some (VStr (name file)))
                          QuestionForm_new (VList []) true)
            | Raise e => Raise e
            end),
      (<["conversation" := VList []]>
         (<["document_id" := VInt (next_id st)]>
            (<["uploaded_filename" := VStr (name file)]> (session st)))),
      (<[next_id st := new_document sv file st]> (documents st)),
      (next_id st + 1), true, stores', tmp,
      ([EvUploadIsValid; EvSave (next_id st)] ++ evs).
    split.
    { rewrite <- app_assoc. now destruct o. }
    split; [exact Hmono |].
    split; [right; split; [reflexivity |]; exists file; now repeat split |].
    repeat split; count.
  - exists (Return (upload_html DocumentUploadForm_new
                      (Some "Please upload a document first."))),
      (session st), (documents st), (next_id st), (vectorstore_dir st),
      (vectorstores st), [], [].
    rewrite !app_nil_r. destruct st; simpl.
    repeat split; auto; try (left; now split); count.
  - exists (Return (upload_html DocumentUploadForm_new
                      (Some "File missing."))),
      (session st), (documents st), (next_id st), (vectorstore_dir st),
      (vectorstores st), [], [].
    rewrite !app_nil_r. destruct st; simpl.
    repeat split; auto; try (left; now split); count.
  - exists (Raise e),
      (session st), (documents st), (next_id st), (vectorstore_dir st),
      (vectorstores st), [], [].
    rewrite !app_nil_r. destruct st; simpl.
    repeat split; auto; try (left; now split); count.
  - exists (Raise DoesNotExist),
      (session st), (documents st), (next_id st), (vectorstore_dir st),
      (vectorstores st), [], [].
    rewrite !app_nil_r. destruct st; simpl.
    repeat split; auto; try (left; now split); count.
  - destruct (get_vectorstore_step doc st)
      as (o & tmp & evs & stores' & Hg & Hmono & _ & Hl & Hs & He & Hh & _).
    rewrite Hg. simpl.
    destruct o as [idx|e].
    2:{ eexists _, _, _, _, _, _, tmp, evs. split; [reflexivity |].
        repeat split; auto; try (left; now split); count. }
    destruct (clean_question (POST request !! "question")) as [err|q].
    { eexists _, _, _, _, _, _, tmp, (evs ++ [EvQuestionIsValid]).
      unfold log; simpl. rewrite <- !app_assoc.
      split; [reflexivity |].
      repeat split; auto; try (left; now split); count. }
    destruct (qa_run sv idx q) as [a|].
    2:{ eexists _, _, _, _, _, _, tmp, (evs ++ [EvQuestionIsValid; EvLLM q]).
        unfold log; simpl. rewrite <- !app_assoc.
        split; [reflexivity |].
        repeat split; auto; try (left; now split); count. }
    destruct (default (VList []) (session st !! "conversation"));
      (eexists _, _, _, _, _, _, tmp, (evs ++ [EvQuestionIsValid; EvLLM q]);
       unfold log; simpl; rewrite <- !app_assoc;
       split; [reflexivity |];
       repeat split; auto; try (left; now split); count).
Qed.

(** ** Edge cases of upload and ask *)

(** An upload submission whose form is invalid saves no document, builds
    no index and leaves the session alone; it falls through to the upload
    page, which gets the bound form and shows its error. *)
Theorem upload_invalid_form request st err :
  classify request = Upload ->
  clean_file (FILES request !! "file") = inl err ->
  exists response st',
    home sv request st = (Return response, st')
    /\ rendered_errors response = [err]
    /\ session st' = session st
    /\ documents st' = documents st
    /\ next_id st' = next_id st
    /\ vectorstores st' = vectorstores st
    /\ trace st' = trace st ++ [EvUploadIsValid].
Proof.
  intros Hc Hf. rewrite (home_upload_invalid _ _ _ Hc Hf).
  eexists _, _. split; [reflexivity |]. simpl. rewrite Hf.
  now repeat split.
Qed.

(** A valid upload whose index cannot be built raises the exception of
    the failing service, but only after the document was saved: the new row
    stays in the table and the session of the request already names it.
    No index was built for it.  When the loader or the parser failed there
    is no store under the new id; when the embedding failed there is the
    empty store that [Chroma.from_documents] created, and that is what
    [get_vectorstore] returns for this document from then on. *)
Theorem upload_index_failure_keeps_row request st file :
  classify request = Upload ->
  clean_file (FILES request !! "file") = inr file ->
  index_for sv (new_document sv file st) (vectorstores st) = None ->
  exists e st',
    home sv request st = (Raise e, st')
    /\ (e = HTTPError \/ e = NotAFile \/ e = PdfError \/ e = EmbeddingError)
    /\ documents st' !! next_id st = Some (new_document sv file st)
    /\ next_id st' = next_id st + 1
    /\ session st' !! "uploaded_filename" = Some (VStr (name file))
    /\ session st' !! "document_id" = Some (VInt (next_id st))
    /\ session st' !! "conversation" = Some (VList [])
    /\ ((e <> EmbeddingError /\ vectorstores st' = vectorstores st)
        \/ (e = EmbeddingError
            /\ vectorstores st'
               = <[next_id st := empty_store sv]> (vectorstores st)
            /\ fst (get_vectorstore sv (new_document sv file st) st')
               = Return (empty_store sv))).
Proof.
  intros Hc Hf Hidx. rewrite (home_upload_valid _ _ _ Hc Hf).
  destruct (get_vectorstore_step (new_document sv file st)
              (uploaded_state sv file st))
    as (o & tmp & evs & stores' & Heq & _ & _ & _ & _ & _ & _ & _ & Ho).
  rewrite Heq. simpl in Ho. destruct o as [idx|e].
  - destruct Ho as [Ho _]. congruence.
  - destruct Ho as (_ & He & Hstores).
    eexists e, _. split; [reflexivity |]. simpl.
    split; [exact He |].
    split; [apply lookup_insert_eq |].
    split; [reflexivity |].
    split; [rewrite !lookup_insert_ne by discriminate;
            apply lookup_insert_eq |].
    split; [rewrite lookup_insert_ne by discriminate;
            apply lookup_insert_eq |].
    split; [apply lookup_insert_eq |].
    destruct Hstores as [[Hne ->] | [-> ->]]; [left; now split | right].
    split; [reflexivity |]. split; [reflexivity |].
    rewrite get_vectorstore_cached with (idx := empty_store sv);
      [reflexivity |].
    simpl. apply lookup_insert_eq.
Qed.

(** An ask in a session that has a filename but no document id (or the id
    0) gets the "File missing." page; nothing is looked up, loaded or
    changed. *)
Theorem ask_missing_document_id request st :
  classify request = Ask ->
  truthy (session st !! "uploaded_filename") = true ->
  truthy (session st !! "document_id") = false ->
  home sv request st
  = (Return (upload_html DocumentUploadForm_new (Some "File missing.")), st).
Proof. apply home_ask_no_document. Qed.

(** When the completion service fails on a valid question, the handler
    raises [CompletionError] and the conversation gets no partial entry:
    the session is as before.  The index obtained for the request stays
    persisted. *)
Theorem ask_completion_failure request st n doc idx q :
  classify request = Ask ->
  truthy (session st !! "uploaded_filename") = true ->
  session st !! "document_id" = Some (VInt n) -> n <> 0 ->
  documents st !! n = Some doc ->
  index_for sv doc (vectorstores st) = Some idx ->
  clean_question (POST request !! "question") = inr q ->
  qa_run sv idx q = None ->
  exists st' evs,
    home sv request st = (Raise CompletionError, st')
    /\ session st' = session st
    /\ documents st' = documents st
    /\ vectorstores st' !! doc_id doc = Some idx
    /\ trace st' = trace st ++ evs ++ [EvQuestionIsValid; EvLLM q].
Proof.
  intros Hc Hf Hid Hn Hdoc Hidx Hq Ha.
  rewrite (home_ask_loaded sv _ _ _ _ Hc Hf Hid Hn Hdoc).
  pose proof (get_vectorstore_outcome sv doc st) as Hout.
  rewrite Hidx in Hout.
  destruct Hout as (tmp & pre & ev & Heq & _). rewrite Heq. simpl.
  rewrite Hq, Ha. eexists _, (pre ++ [ev]). split; [reflexivity |]. simpl.
  repeat split.
  - apply lookup_insert_eq.
  - now rewrite <- !app_assoc.
Qed.

(** After a reset, an ask in the same session is answered with "Please
    upload a document first." and changes nothing, whatever the session
    held before. *)
Theorem reset_then_ask reset ask st :
  classify reset = Reset ->
  classify ask = Ask ->
  home sv ask (snd (home sv reset st))
  = (Return (upload_html DocumentUploadForm_new
               (Some "Please upload a document first.")),
     snd (home sv reset st)).
Proof.
  intros Hr Ha. rewrite (home_reset_state _ _ Hr). simpl.
  apply home_ask_no_filename; [exact Ha |]. simpl.
  rewrite lookup_delete_ne by discriminate. now rewrite lookup_delete_eq.
Qed.

(** ** What no request does *)

(** No request removes or replaces a persisted index: an index that is on
    disk before a request is on disk, unchanged, after it, whatever the
    request and its outcome. *)
Theorem home_keeps_indexes request st j idx :
  vectorstores st !! j = Some idx ->
  vectorstores (snd (home sv request st)) !! j = Some idx.
Proof.
  intros Hj.
  destruct (home_step request st)
    as (o & sess' & docs' & nid' & vsd' & stores' & tmp & evs & Heq & Hmono & _).
  rewrite Heq. simpl. now apply Hmono.
Qed.

(** No request deletes or overwrites a document row: in a table whose rows
    sit under their own ids below the next primary key, every row is still
    there after the request, the table is again of that form, and only an
    upload changes it at all. *)
Theorem home_keeps_documents request st :
  documents_ok st ->
  (forall n doc, documents st !! n = Some doc ->
                 documents (snd (home sv request st)) !! n = Some doc)
  /\ documents_ok (snd (home sv request st))
  /\ next_id st <= next_id (snd (home sv request st))
  /\ (classify request <> Upload ->
      documents (snd (home sv request st)) = documents st).
Proof.
  intros Hok.
  destruct (home_step request st)
    as (o & sess' & docs' & nid' & vsd' & stores' & tmp & evs & Heq & _ & Hd & _).
  rewrite Heq. unfold documents_ok in *. simpl.
  destruct Hd as [[-> ->] | (Hc & file & Hf & -> & ->)].
  - split; [auto |]. split; [exact Hok |]. split; [lia | reflexivity].
  - split; [| split; [| split]].
    + intros n doc Hn. rewrite lookup_insert_ne; [exact Hn |].
      intros <-. apply Hok in Hn. lia.
    + intros n doc Hn. destruct (decide (n = next_id st)) as [-> | Hne].
      * rewrite lookup_insert_eq in Hn. injection Hn as <-.
        unfold new_document. simpl. split; [reflexivity | lia].
      * rewrite lookup_insert_ne in Hn by congruence.
        apply Hok in Hn. split; [tauto | lia].
    + lia.
    + intros Hne. contradiction.
Qed.

(** A request invokes [qa.run] at most once, [Chroma.from_documents] at
    most once, downloads at most one file and saves at most one document;
    an upload never invokes [qa.run], an ask saves no document, and reset,
    clear and the default branch make none of the recorded calls.  (What
    the embedding service is asked inside [from_documents] and [qa.run] is
    theirs and not counted here.) *)
Theorem home_call_budget request st :
  exists evs,
    trace (snd (home sv request st)) = trace st ++ evs
    /\ (count_events is_llm evs <= 1)%nat
    /\ (count_events is_from_documents evs <= 1)%nat
    /\ (count_events is_http_get evs <= 1)%nat
    /\ (count_events is_save evs <= 1)%nat
    /\ match classify request with
       | Upload => count_events is_llm evs = 0%nat
       | Ask => count_events is_save evs = 0%nat
       | _ => evs = []
       end.
Proof.
  destruct (home_step request st)
    as (o & sess' & docs' & nid' & vsd' & stores' & tmp & evs & Heq & _ & _
        & Hl & He & Hs & Hh & Hc).
  rewrite Heq. exists evs. simpl. repeat split; try assumption.
  destruct (classify request); tauto.
Qed.

(** ** Sessions the handler writes *)

Lemma clean_file_inr x file :
  clean_file x = inr file ->
  x = Some file /\ name file <> "" /\ content file <> "".
Proof.
  unfold clean_file. destruct x as [f|]; [| discriminate].
  destruct (String.eqb_spec (name f) ""); [discriminate |].
  destruct (String.eqb_spec (content f) ""); [discriminate |].
  intros [= <-]. now repeat split.
Qed.

Lemma session_ok_truthy st :
  session_ok st ->
  truthy (session st !! "uploaded_filename") = true ->
  exists f n doc,
    session st !! "uploaded_filename" = Some (VStr f)
    /\ session st !! "document_id" = Some (VInt n)
    /\ documents st !! n = Some doc.
Proof.
  intros [_ Hs] Ht.
  destruct (session st !! "uploaded_filename") as [[f| |]|];
    try contradiction; try discriminate.
  destruct (session st !! "document_id") as [[|n|]|]; try contradiction.
  destruct Hs as [_ [doc Hdoc]]. now exists f, n, doc.
Qed.

(** A session that the handler can have written stays one, whatever the
    request and its outcome: filename and document id are both absent or
    name an existing row, and the conversation is absent or a list. *)
Theorem home_preserves_session_ok request st :
  session_ok st -> session_ok (snd (home sv request st)).
Proof.
  intros Hok.
  destruct (home_cases request st)
    as [(Hc & Heq) | [(Hc & Heq) | [(Hc & Heq) | [(Hc & err & Hf & Heq)
       | [(Hc & file & Hf & Heq) | [(Hc & Hfn & Heq) | [(Hc & Hfn & Hid & Heq)
       | [(Hc & Hfn & v & e & Hv & Hid & He & Heq)
       | [(Hc & Hfn & v & n & Hv & Hid & Hd & Heq)
       | (Hc & Hfn & v & n & doc & Hv & Hid & Hd & Heq)]]]]]]]]];
    rewrite Heq; clear Heq; simpl; try exact Hok.
  - unfold session_ok, conversation_ok. simpl.
    rewrite lookup_delete_ne, lookup_delete_ne, lookup_delete_eq
      by discriminate.
    rewrite lookup_delete_ne, lookup_delete_eq by discriminate.
    rewrite lookup_delete_eq. now split.
  - destruct Hok as [_ Hs]. unfold session_ok, conversation_ok. simpl.
    rewrite lookup_insert_eq, !lookup_insert_ne by discriminate.
    now split.
  - destruct (get_vectorstore_step (new_document sv file st)
                (uploaded_state sv file st))
      as (o & tmp & evs & stores' & Hg & _).
    rewrite Hg.
    assert (Hgoal : session_ok
              (mkState (session (uploaded_state sv file st))
                 (documents (uploaded_state sv file st))
                 (next_id (uploaded_state sv file st)) true stores'
                 (tmp_files (uploaded_state sv file st) ++ tmp)
                 (trace (uploaded_state sv file st) ++ evs))).
    { apply clean_file_inr in Hf as (_ & Hname & _).
      unfold session_ok, conversation_ok. simpl.
      rewrite lookup_insert_eq.
      rewrite lookup_insert_ne, lookup_insert_ne, lookup_insert_eq
        by discriminate.
      rewrite lookup_insert_ne, lookup_insert_eq by discriminate.
      split; [reflexivity |]. split; [exact Hname |].
      rewrite lookup_insert_eq. eauto. }
    now destruct o.
  - destruct (get_vectorstore_step doc st)
      as (o & tmp & evs & stores' & Hg & _).
    rewrite Hg. simpl.
    destruct o as [idx|e]; [| exact Hok].
    destruct (clean_question (POST request !! "question")) as [err|q];
      [exact Hok |].
    destruct (qa_run sv idx q) as [a|]; [| exact Hok].
    destruct (default (VList []) (session st !! "conversation"));
      try exact Hok.
    destruct Hok as [_ Hs]. unfold session_ok, conversation_ok. simpl.
    rewrite lookup_insert_eq, !lookup_insert_ne by discriminate.
    now split.
Qed.

(** On a session the handler can have written, a request raises nothing
    but the exception of a failing service: [DoesNotExist], [ValueError]
    and [AttributeError] need a row deleted or a session written from
    outside. *)
Theorem home_raises_only_service_errors request st e :
  session_ok st ->
  fst (home sv request st) = Raise e ->
  is_service_error e = true.
Proof.
  intros Hok.
  destruct (home_cases request st)
    as [(Hc & Heq) | [(Hc & Heq) | [(Hc & Heq) | [(Hc & err & Hf & Heq)
       | [(Hc & file & Hf & Heq) | [(Hc & Hfn & Heq) | [(Hc & Hfn & Hid & Heq)
       | [(Hc & Hfn & v & e0 & Hv & Hid & He & Heq)
       | [(Hc & Hfn & v & n & Hv & Hid & Hd & Heq)
       | (Hc & Hfn & v & n & doc & Hv & Hid & Hd & Heq)]]]]]]]]];
    rewrite Heq; clear Heq; simpl; try discriminate.
  - destruct (get_vectorstore_step (new_document sv file st)
                (uploaded_state sv file st))
      as (o & tmp & evs & stores' & Hg & _ & _ & _ & _ & _ & _ & _ & Ho).
    rewrite Hg. destruct o as [idx|e']; simpl; [discriminate |].
    intros [= <-].
    destruct Ho as (_ & [-> | [-> | [-> | ->]]] & _); reflexivity.
  - destruct (session_ok_truthy _ Hok Hfn) as (f & n & doc & _ & Hid' & _).
    rewrite Hid' in Hv. injection Hv as <-. discriminate.
  - destruct (session_ok_truthy _ Hok Hfn)
      as (f & n' & doc & _ & Hid' & Hdoc).
    rewrite Hid' in Hv. injection Hv as <-. simpl in Hid.
    injection Hid as <-. congruence.
  - destruct (get_vectorstore_step doc st)
      as (o & tmp & evs & stores' & Hg & _ & _ & _ & _ & _ & _ & _ & Ho).
    rewrite Hg. simpl. destruct o as [idx|e'].
    2:{ simpl. intros [= <-].
        destruct Ho as (_ & [-> | [-> | [-> | ->]]] & _); reflexivity. }
    destruct (clean_question (POST request !! "question")) as [err|q];
      [discriminate |].
    destruct (qa_run sv idx q) as [a|]; [| now intros [= <-]].
    destruct Hok as [Hconv _]. unfold conversation_ok in Hconv.
    destruct (session st !! "conversation") as [[| |l]|]; simpl;
      discriminate.
Qed.

(** An ask, whatever its outcome, leaves every session key other than the
    conversation, and the document table, as they were; the conversation
    keeps its entries and gets either nothing or exactly one entry, whose
    question is the cleaned text of the submitted question. *)
Theorem ask_touches_only_conversation request st :
  classify request = Ask ->
  (forall k : string, k <> "conversation" ->
     session (snd (home sv request st)) !! k = session st !! k)
  /\ documents (snd (home sv request st)) = documents st
  /\ next_id (snd (home sv request st)) = next_id st
  /\ (conversation_of (session (snd (home sv request st)))
      = conversation_of (session st)
      \/ exists q a,
           clean_question (POST request !! "question") = inr q
           /\ conversation_of (session (snd (home sv request st)))
              = conversation_of (session st) ++ [mkEntry q a]).
Proof.
  intros Hask.
  destruct (home_cases request st)
    as [(Hc & Heq) | [(Hc & Heq) | [(Hc & Heq) | [(Hc & err & Hf & Heq)
       | [(Hc & file & Hf & Heq) | [(Hc & Hfn & Heq) | [(Hc & Hfn & Hid & Heq)
       | [(Hc & Hfn & v & e & Hv & Hid & He & Heq)
       | [(Hc & Hfn & v & n & Hv & Hid & Hd & Heq)
       | (Hc & Hfn & v & n & doc & Hv & Hid & Hd & Heq)]]]]]]]]];
    try congruence; rewrite Heq; clear Heq; simpl;
    try (repeat split; auto; fail).
  destruct (get_vectorstore_step doc st)
    as (o & tmp & evs & stores' & Hg & _).
  rewrite Hg. simpl.
  destruct o as [idx|e]; [| repeat split; auto].
  destruct (clean_question (POST request !! "question")) as [err|q] eqn:Hq;
    [repeat split; auto |].
  destruct (qa_run sv idx q) as [a|]; [| repeat split; auto].
  destruct (default (VList []) (session st !! "conversation")) as [| |l]
    eqn:Hconv; try (repeat split; auto; fail).
  simpl. repeat split; auto.
  - intros k Hk. now rewrite lookup_insert_ne by congruence.
  - right. exists q, a. split; [reflexivity |].
    unfold conversation_of. rewrite lookup_insert_eq.
    destruct (session st !! "conversation") as [c|]; simpl in Hconv.
    + now subst c.
    + now injection Hconv as <-.
Qed.

(** ** Requests in sequence and ignored markers *)

(** A valid upload followed by a valid question in the same session: the
    ask finds the document of that upload, opens the index the upload left
    on disk (it embeds nothing again), and the conversation is exactly the
    one entry of this question.  Primary keys are not 0. *)
Theorem upload_then_ask upload ask st file idx q a :
  classify upload = Upload ->
  clean_file (FILES upload !! "file") = inr file ->
  index_for sv (new_document sv file st) (vectorstores st) = Some idx ->
  next_id st <> 0 ->
  classify ask = Ask ->
  clean_question (POST ask !! "question") = inr q ->
  qa_run sv idx q = Some a ->
  exists st1 st2,
    home sv upload st
    = (Return (upload_success_html (Some (VStr (name file))) QuestionForm_new
                 (VList []) true), st1)
    /\ home sv ask st1
       = (Return (upload_success_html (Some (VStr (name file)))
                    QuestionForm_new (VList [mkEntry q a]) false), st2)
    /\ trace st2
       = trace st1 ++ [EvChromaOpen (next_id st); EvQuestionIsValid; EvLLM q]
    /\ session st2 !! "conversation" = Some (VList [mkEntry q a])
    /\ vectorstores st2 = vectorstores st1.
Proof.
  intros Hup Hf Hidx Hnid Hask Hq Ha.
  rewrite (home_upload_valid _ _ _ Hup Hf).
  destruct (get_vectorstore_step (new_document sv file st)
              (uploaded_state sv file st))
    as (o & tmp & evs & stores' & Hg & _ & _ & _ & _ & _ & _ & _ & Ho).
  rewrite Hg. simpl in Ho. destruct o as [idx'|e];
    [| destruct Ho as [Ho _]; congruence].
  destruct Ho as [Hidx' Hst]. rewrite Hidx in Hidx'. injection Hidx' as <-.
  apply clean_file_inr in Hf as (_ & Hname & _).
  eexists _, _. split; [reflexivity |].
  match goal with |- context [home sv ask ?s] => set (st1 := s) end.
  assert (Hfn : session st1 !! "uploaded_filename" = Some (VStr (name file))).
  { simpl. rewrite !lookup_insert_ne by discriminate.
    apply lookup_insert_eq. }
  assert (Hft : truthy (session st1 !! "uploaded_filename") = true).
  { rewrite Hfn. simpl. destruct (String.eqb_spec (name file) "");
      [contradiction | reflexivity]. }
  assert (Hid : session st1 !! "document_id" = Some (VInt (next_id st))).
  { simpl. rewrite lookup_insert_ne by discriminate. apply lookup_insert_eq. }
  assert (Hdoc : documents st1 !! next_id st = Some (new_document sv file st))
    by (simpl; apply lookup_insert_eq).
  rewrite (home_ask_loaded sv _ _ _ _ Hask Hft Hid Hnid Hdoc).
  rewrite get_vectorstore_cached with (idx := idx) by exact Hst.
  simpl. rewrite Hq, Ha. rewrite lookup_insert_eq. simpl.
  rewrite !lookup_insert_ne by discriminate. rewrite lookup_insert_eq.
  split; [reflexivity |]. simpl.
  split; [now rewrite <- !app_assoc |].
  split; [apply lookup_insert_eq | reflexivity].
Qed.

Lemma in_POST_without key key' request :
  in_POST key (without key' request)
  = if String.eqb key key' then false else in_POST key request.
Proof.
  unfold in_POST, without. simpl.
  destruct (String.eqb_spec key key') as [-> | Hne].
  - rewrite lookup_delete_eq. apply bool_decide_eq_false. apply is_Some_None.
  - now rewrite lookup_delete_ne by congruence.
Qed.

(** Only the marker that decides the action matters: taking any other
    marker out of the body of the request changes neither the response nor
    the state the request leaves. *)
Theorem ignored_markers request st m m' :
  selected_marker request = Some m ->
  In m' markers -> m' <> m ->
  home sv (without m' request) st = home sv request st.
Proof.
  intros Hsel Hin Hne.
  assert (Hclass : classify (without m' request) = classify request).
  { unfold classify, selected_marker, markers in *.
    change (is_POST (without m' request)) with (is_POST request).
    destruct (is_POST request); [| reflexivity].
    simpl in Hsel |- *. rewrite !in_POST_without.
    simpl in Hin.
    destruct Hin as [<- | [<- | [<- | [<- | []]]]]; simpl;
      destruct (in_POST "upload_file" request);
      destruct (in_POST "ask_question" request);
      destruct (in_POST "reset" request);
      destruct (in_POST "clear_chat" request);
      simpl in *; congruence. }
  rewrite !home_branch, Hclass.
  assert (Hq : POST (without m' request) !! "question"
               = POST request !! "question").
  { unfold without. simpl. apply lookup_delete_ne.
    unfold markers in Hin. simpl in Hin.
    destruct Hin as [<- | [<- | [<- | [<- | []]]]]; discriminate. }
  destruct (classify request); unfold branch, home_upload, home_ask;
    rewrite ?Hq; reflexivity.
Qed.

End More.

(** ** The further properties on concrete requests *)

Lemma get_vectorstore_again_witness :
  fst (get_vectorstore Demo.services Demo.remote_doc
         (snd (get_vectorstore Demo.services Demo.remote_doc Demo.empty_state)))
  = Return Demo.report_index.
Proof.
  rewrite (get_vectorstore_again Demo.services Demo.remote_doc
             Demo.empty_state Demo.report_index
             (snd (get_vectorstore Demo.services Demo.remote_doc
                     Demo.empty_state))).
  - reflexivity.
  - vm_compute. reflexivity.
Defined.

Lemma get_vectorstore_error_stage_witness :
  vectorstores (snd (get_vectorstore Demo.broken_embedding Demo.remote_doc
                       Demo.empty_state)) !! 5
  = Some (empty_store Demo.broken_embedding)
  /\ fst (get_vectorstore Demo.broken_embedding Demo.remote_doc
            Demo.empty_state)
     = Raise EmbeddingError.
Proof.
  pose proof (get_vectorstore_error_stage Demo.broken_embedding
                Demo.remote_doc Demo.empty_state) as H.
  destruct H as (Hs & _ & He & _); [vm_compute; reflexivity |].
  split; [exact Hs | exact He].
Defined.

(** A local path that is no file: the loader's constructor raises, nothing
    is parsed and no store is left. *)
Example get_vectorstore_no_file :
  get_vectorstore Demo.no_files Demo.report_doc Demo.empty_state
  = (Raise NotAFile, makedirs Demo.empty_state).
Proof. vm_compute. reflexivity. Qed.

(** After an upload whose embedding failed, the empty store is what an ask
    for that document opens: the model is asked with nothing indexed. *)
Example ask_after_failed_embedding :
  trace (snd (home Demo.services (Demo.ask_request "What is the total revenue?")
                (snd (home Demo.broken_embedding Demo.upload_request
                        Demo.empty_state))))
  = [EvUploadIsValid; EvSave 1;
     EvPdfLoad (PyPDFLoader_path "/srv/media/report.pdf");
     EvEmbed ["Total revenue was 12 million."];
     EvChromaOpen 1; EvQuestionIsValid;
     EvLLM (text_of_string "What is the total revenue?")].
Proof. vm_compute. reflexivity. Qed.

Lemma upload_invalid_form_witness :
  exists response st',
    home Demo.services (Demo.post [("upload_file", "")] []) Demo.empty_state
    = (Return response, st')
    /\ rendered_errors response = ["required"]
    /\ session st' = session Demo.empty_state.
Proof.
  destruct (upload_invalid_form Demo.services
              (Demo.post [("upload_file", "")] []) Demo.empty_state "required")
    as (response & st' & H & He & Hs & _); try (vm_compute; reflexivity).
  exists response, st'. repeat split; assumption.
Defined.

Lemma upload_index_failure_keeps_row_witness :
  exists e st',
    home Demo.broken_embedding Demo.upload_request Demo.empty_state
    = (Raise e, st')
    /\ documents st' !! next_id Demo.empty_state
       = Some (new_document Demo.broken_embedding Demo.report Demo.empty_state)
    /\ session st' !! "document_id" = Some (VInt (next_id Demo.empty_state)).
Proof.
  destruct (upload_index_failure_keeps_row Demo.broken_embedding
              Demo.upload_request Demo.empty_state Demo.report)
    as (e & st' & H & _ & Hd & _ & _ & Hid & _); try (vm_compute; reflexivity).
  exists e, st'. repeat split; assumption.
Defined.

Lemma ask_missing_document_id_witness :
  home Demo.services (Demo.ask_request "What is the total revenue?")
       Demo.no_id_state
  = (Return (upload_html DocumentUploadForm_new (Some "File missing.")),
     Demo.no_id_state).
Proof.
  apply (ask_missing_document_id Demo.services); vm_compute; reflexivity.
Defined.

Lemma ask_completion_failure_witness :
  exists st',
    home Demo.broken_llm (Demo.ask_request "What is the total revenue?")
         Demo.asked_state
    = (Raise CompletionError, st')
    /\ session st' = session Demo.asked_state.
Proof.
  destruct (ask_completion_failure Demo.broken_llm
              (Demo.ask_request "What is the total revenue?") Demo.asked_state
              1 Demo.report_doc Demo.report_index "What is the total revenue?")
    as (st' & evs & H & Hs & _); try (vm_compute; reflexivity);
    [discriminate |].
  exists st'. split; assumption.
Defined.

Lemma reset_then_ask_witness :
  fst (home Demo.services (Demo.ask_request "What is the total revenue?")
         (snd (home Demo.services Demo.reset_request Demo.asked_state)))
  = Return (upload_html DocumentUploadForm_new
              (Some "Please upload a document first.")).
Proof.
  rewrite (reset_then_ask Demo.services Demo.reset_request
             (Demo.ask_request "What is the total revenue?") Demo.asked_state);
    [reflexivity | vm_compute; reflexivity | vm_compute; reflexivity].
Defined.

Lemma home_keeps_indexes_witness :
  vectorstores (snd (home Demo.services Demo.reset_request Demo.loaded_state))
    !! 1 = Some Demo.report_index.
Proof.
  apply (home_keeps_indexes Demo.services). vm_compute. reflexivity.
Defined.

Lemma documents_ok_empty : documents_ok Demo.empty_state.
Proof. intros n doc Hn. simpl in Hn. now rewrite lookup_empty in Hn. Qed.

Lemma home_keeps_documents_witness :
  documents_ok (snd (home Demo.services Demo.upload_request Demo.empty_state))
  /\ next_id Demo.empty_state
     <= next_id (snd (home Demo.services Demo.upload_request Demo.empty_state)).
Proof.
  destruct (home_keeps_documents Demo.services Demo.upload_request
              Demo.empty_state documents_ok_empty) as (_ & Hok & Hle & _).
  split; assumption.
Defined.

Lemma session_ok_empty : session_ok Demo.empty_state.
Proof.
  unfold session_ok, conversation_ok. simpl. rewrite !lookup_empty. now split.
Qed.

Lemma home_preserves_session_ok_witness :
  session_ok (snd (home Demo.services Demo.upload_request Demo.empty_state)).
Proof.
  apply (home_preserves_session_ok Demo.services). exact session_ok_empty.
Defined.

Lemma home_raises_only_service_errors_witness :
  is_service_error PdfError = true.
Proof.
  apply (home_raises_only_service_errors Demo.broken_pdf Demo.upload_request
           Demo.empty_state PdfError).
  - exact session_ok_empty.
  - vm_compute. reflexivity.
Defined.

Lemma ask_touches_only_conversation_witness :
  documents (snd (home Demo.services (Demo.ask_request "Who wrote it?")
                    Demo.asked_state))
  = documents Demo.asked_state
  /\ session (snd (home Demo.services (Demo.ask_request "Who wrote it?")
                     Demo.asked_state)) !! "document_id"
     = session Demo.asked_state !! "document_id".
Proof.
  destruct (ask_touches_only_conversation Demo.services
              (Demo.ask_request "Who wrote it?") Demo.asked_state)
    as (Hk & Hd & _); [vm_compute; reflexivity |].
  split; [exact Hd | apply Hk; discriminate].
Defined.

Lemma upload_then_ask_witness :
  exists st1 st2,
    home Demo.services Demo.upload_request Demo.empty_state
    = (Return (upload_success_html (Some (VStr (name Demo.report)))
                 QuestionForm_new (VList []) true), st1)
    /\ home Demo.services (Demo.ask_request "What is the total revenue?") st1
       = (Return (upload_success_html (Some (VStr (name Demo.report)))
                    QuestionForm_new
                    (VList [mkEntry "What is the total revenue?"
                              "Answer to: What is the total revenue?"])
                    false), st2).
Proof.
  destruct (upload_then_ask Demo.services Demo.upload_request
              (Demo.ask_request "What is the total revenue?")
              Demo.empty_state Demo.report Demo.report_index
              "What is the total revenue?"
              "Answer to: What is the total revenue?")
    as (st1 & st2 & H1 & H2 & _); try (vm_compute; reflexivity);
    [discriminate |].
  exists st1, st2. split; assumption.
Defined.

Lemma ignored_markers_witness :
  home Demo.services (without "reset" Demo.all_markers_request)
       Demo.empty_state
  = home Demo.services Demo.all_markers_request Demo.empty_state.
Proof.
  apply (ignored_markers Demo.services Demo.all_markers_request
           Demo.empty_state "upload_file" "reset").
  - vm_compute. reflexivity.
  - right. right. left. reflexivity.
  - discriminate.
Defined.
